(** * Stock price movement prediction: feature and label pipeline

    Shallow embedding of the two notebooks
    [stock_sentiment_prediction.ipynb] (the base pipeline) and
    [enhanced_stock_sentiment_prediction.ipynb] (the enhanced pipeline):
    the pandas column operations they call, the RSI helper they define,
    the two [dropna] steps, the label column, the chronological
    train/test split and the headline retrieval with its fallback.

    Numbers.  A pandas float64 cell is modelled by [fval]: a finite
    rational, an infinity with its sign, or NaN.  Finite arithmetic is
    exact (no rounding) and zero carries no sign; the special values
    follow IEEE 754: [x / 0] is infinite for [x <> 0], [0 / 0] is NaN,
    [x / inf] is [0], NaN is absorbing and every comparison with NaN is
    false.  Close prices and sentiment scores, as delivered by the data
    source and the sentiment scorer, are finite.

    Rounding.  What the frame keeps and drops, the labels and the split
    are stated on these cells.  The values of the RSI column depend on
    the rounding of float64 and on the running sum by which pandas takes
    a rolling mean; module [Float64] models both, with the binary64
    arithmetic of the standard library's [SpecFloat]. *)

From Stdlib Require Import QArith Qcanon Qround ZArith.
From Stdlib Require Qcabs SpecFloat.
From stdpp Require Import base numbers list strings sorting.

Local Open Scope Qc_scope.

(** ** Float cells *)

Inductive fval : Type :=
  | Fin (q : Qc)
  | Inf (negative : bool)
  | NaN.

Global Instance fval_inhabited : Inhabited fval := populate NaN.

Global Instance fval_eq_dec : EqDecision fval.
Proof. solve_decision. Defined.

Definition isna (x : fval) : bool :=
  match x with NaN => true | _ => false end.



Definition Qcltb (a b : Qc) : bool := bool_decide (a < b).

Definition fneg (x : fval) : fval :=
  match x with
  | Fin a => Fin (- a)
  | Inf s => Inf (negb s)
  | NaN => NaN
  end.

Definition fadd (x y : fval) : fval :=
  match x, y with
  | Fin a, Fin b => Fin (a + b)
  | Fin _, Inf s => Inf s
  | Inf s, Fin _ => Inf s
  | Inf s, Inf t => if bool_decide (s = t) then Inf s else NaN
  | _, _ => NaN
  end.

Definition fsub (x y : fval) : fval := fadd x (fneg y).

Definition fdiv (x y : fval) : fval :=
  match x, y with
  | Fin a, Fin b =>
      if bool_decide (b = 0) then
        if bool_decide (a = 0) then NaN else Inf (Qcltb a 0)
      else Fin (a / b)
  | Fin _, Inf _ => Fin 0
  | Inf s, Fin b => Inf (xorb s (Qcltb b 0))
  | _, _ => NaN
  end.

(** [x > y] on cells: false as soon as one side is NaN. *)
Definition fgt (x y : fval) : bool :=
  match x, y with
  | Fin a, Fin b => Qcltb b a
  | Fin _, Inf s => s
  | Inf s, Fin _ => negb s
  | Inf s, Inf t => negb s && t
  | _, _ => false
  end.

Definition flt (x y : fval) : bool := fgt y x.

Definition of_Z (z : Z) : fval := Fin (Qc_of_Z z).
Definition of_nat (n : nat) : fval := of_Z (Z.of_nat n).

(** ** pandas Series operations used by the notebooks *)

Abbreviation Series := (list fval).

(** [s.shift(1)]: every value moves one row down, row 0 becomes NaN. *)
Definition shift1 (s : Series) : Series :=
  imap (fun i _ => match i with O => NaN | S j => s !!! j end) s.

(** [s.shift(-1)]: every value moves one row up, the last row becomes NaN. *)
Definition shift_back (s : Series) : Series :=
  imap (fun i _ => default NaN (s !! S i)) s.

(** [s.diff()] is [s - s.shift(1)]. *)
Definition diff (s : Series) : Series := zip_with fsub s (shift1 s).

(** [s.where(cond, other)]: keep the value where [cond] holds. *)
Definition where_ (s : Series) (cond : list bool) (other : fval) : Series :=
  zip_with (fun x (c : bool) => if c then x else other) s cond.

Definition gt_scalar (s : Series) (c : fval) : list bool :=
  (fun x => fgt x c) <$> s.

Definition lt_scalar (s : Series) (c : fval) : list bool :=
  (fun x => flt x c) <$> s.

Definition neg (s : Series) : Series := fneg <$> s.

Definition fsum (s : Series) : fval := foldr fadd (Fin 0) s.

(** The [window] rows that end at row [i] (for [window <= i + 1]). *)
Definition window_at (window : nat) (s : Series) (i : nat) : Series :=
  take window (drop (S i - window) s).

(** [s.rolling(window).mean()]: [min_periods] defaults to [window], so the
    first [window - 1] rows are NaN; a NaN inside the window makes the
    row NaN as well.  The sum of a window is exact. *)
Definition rolling_mean (window : nat) (s : Series) : Series :=
  imap (fun i _ =>
          if bool_decide (S i < window)%nat then NaN
          else fdiv (fsum (window_at window s i)) (of_nat window)) s.

Definition div (a b : Series) : Series := zip_with fdiv a b.
Definition radd (c : fval) (s : Series) : Series := (fun x => fadd c x) <$> s.
Definition rdiv (c : fval) (s : Series) : Series := (fun x => fdiv c x) <$> s.
Definition rsub (c : fval) (s : Series) : Series := (fun x => fsub c x) <$> s.

(** ** [compute_RSI] (base) and [compute_dummy_RSI] (enhanced)

    The two notebooks define the same function under two names. *)

Definition compute_RSI (series : Series) (period : nat) : Series :=
  let delta := diff series in
  let gain := rolling_mean period (where_ delta (gt_scalar delta (of_Z 0)) (of_Z 0)) in
  let loss := rolling_mean period (neg (where_ delta (lt_scalar delta (of_Z 0)) (of_Z 0))) in
  let RS := div gain loss in
  rsub (of_Z 100) (rdiv (of_Z 100) (radd (of_Z 1) RS)).

(** The local variables [gain], [loss] and [RS] of [compute_RSI]. *)
Definition rsi_gain (series : Series) (period : nat) : Series :=
  let delta := diff series in
  rolling_mean period (where_ delta (gt_scalar delta (of_Z 0)) (of_Z 0)).

Definition rsi_loss (series : Series) (period : nat) : Series :=
  let delta := diff series in
  rolling_mean period (neg (where_ delta (lt_scalar delta (of_Z 0)) (of_Z 0))).

Definition rsi_RS (series : Series) (period : nat) : Series :=
  div (rsi_gain series period) (rsi_loss series period).

Definition compute_dummy_RSI (series : Series) (period : nat) : Series :=
  compute_RSI series period.

Definition default_period : nat := 14.

(** ** Data frames

    A frame is a list of rows; a column is the projection of a field.
    [dropna] removes every row that holds a missing value in some column.
    pandas treats NaN (not the infinities) as missing; an int64 or a
    datetime column delivered by the source holds no missing value. *)

Class HasNa (A : Type) := has_na : A -> bool.

Global Instance fval_has_na : HasNa fval := isna.
Global Instance Z_has_na : HasNa Z := fun _ => false.

Definition dropna {A} `{HasNa A} (df : list A) : list A :=
  filter (fun r => has_na r = false) df.

(** Adds one more column to a frame under construction. *)
Definition with_column {A B} (rows : list (A -> B)) (col : list A) : list B :=
  zip_with (fun f x => f x) rows col.

(** One price observation as loaded: the date (a day number) and the
    close price. *)
Record Quote := mkQuote { qDate : Z; qClose : Qc }.

(** Date, Close and the three indicator columns. *)
Record IndRow := mkInd {
  Date : Z; Close : fval; MA20 : fval; MA50 : fval; RSI : fval }.

Record FeatRow := mkFeat { ind : IndRow; Sentiment : fval }.

Record Labeled := mkLab { feat : FeatRow; Target : Z }.

Global Instance IndRow_inhabited : Inhabited IndRow :=
  populate (mkInd 0 NaN NaN NaN NaN).
Global Instance FeatRow_inhabited : Inhabited FeatRow :=
  populate (mkFeat inhabitant NaN).
Global Instance Labeled_inhabited : Inhabited Labeled :=
  populate (mkLab inhabitant 0).

Global Instance IndRow_has_na : HasNa IndRow := fun r =>
  has_na (Date r) || has_na (Close r) || has_na (MA20 r)
  || has_na (MA50 r) || has_na (RSI r).

Global Instance FeatRow_has_na : HasNa FeatRow := fun r =>
  has_na (ind r) || has_na (Sentiment r).

Global Instance Labeled_has_na : HasNa Labeled := fun r =>
  has_na (feat r) || has_na (Target r).

Definition lDate (r : Labeled) : Z := Date (ind (feat r)).
Definition lClose (r : Labeled) : fval := Close (ind (feat r)).

(** [.astype(int)] on a boolean column. *)
Definition astype_int (c : list bool) : list Z :=
  (fun b : bool => if b then 1%Z else 0%Z) <$> c.

Definition gt (a b : Series) : list bool := zip_with fgt a b.

(** [(df['Close'].shift(-1) > df['Close']).astype(int)] *)
Definition target_column (close : Series) : list Z :=
  astype_int (gt (shift_back close) close).

(** The indicator columns both notebooks derive from [Close]. *)
Definition indicator_rows (data : list Quote) : list IndRow :=
  let close := (fun q => Fin (qClose q)) <$> data in
  let ma20 := rolling_mean 20 close in
  let ma50 := rolling_mean 50 close in
  let rsi := compute_RSI close default_period in
  with_column (with_column (with_column
    (zip_with mkInd (qDate <$> data) close) ma20) ma50) rsi.

(** [df['Target'] = ...] followed by [df.dropna(inplace=True)]. *)
Definition add_target (df : list FeatRow) : list Labeled :=
  let target := target_column ((fun r => Close (ind r)) <$> df) in
  dropna (zip_with mkLab df target).

(** ** Base notebook *)

Section Base.
(** [random.choice]: the index drawn at the k-th call. *)
Variable choice : nat -> nat.
(** [sid.polarity_scores(headline)['compound']], a score in [-1, 1]. *)
Variable compound : string -> Qc.

Definition fake_headlines : list string :=
  [ "Company reports record earnings";
    "Market worries over economic slowdown";
    "Analysts optimistic about growth";
    "Concerns rise over regulatory issues";
    "Innovative product launch boosts confidence" ]%string.

Definition generate_fake_headlines (k : nat) (date : Z) : string :=
  fake_headlines !!! (choice k mod length fake_headlines)%nat.

Definition get_sentiment_score (headline : string) : Qc := compound headline.

Definition base_features (stock_data : list Quote) : list FeatRow :=
  let headline := imap generate_fake_headlines (qDate <$> stock_data) in
  let sentiment := (fun h => Fin (get_sentiment_score h)) <$> headline in
  dropna (zip_with mkFeat (indicator_rows stock_data) sentiment).

Definition base_table (stock_data : list Quote) : list Labeled :=
  add_target (base_features stock_data).
End Base.

(** ** Enhanced notebook: headline retrieval and sentiment *)

Record Article := mkArticle { title : string }.

Record Response := mkResponse { status_code : Z; articles : list Article }.

Inductive stdout_line :=
  | ErrorFetchingNews (status : Z)
  | LiveHeadlines (hs : list string)
  | AverageScore (x : Qc)
  | NoHeadlines.

Definition demo_headlines : list string :=
  [ "Apple launches new product amid market hype";
    "Analysts optimistic about AAPL performance" ]%string.

Section Enhanced.
(** [requests.get]: the response the news service gives to a URL. *)
Variable requests_get : string -> Response.
(** The transformer pipeline: the label and the score of a headline. *)
Variable sentiment_pipeline : string -> string * Qc.

Definition news_url (query from_date to_date api_key : string) : string :=
  ("https://newsapi.org/v2/everything?" +:+
   "q=" +:+ query +:+ "&from=" +:+ from_date +:+ "&to=" +:+ to_date +:+ "&" +:+
   "sortBy=publishedAt&language=en&" +:+
   "apiKey=" +:+ api_key)%string.

(** The headlines and what the call printed. *)
Definition fetch_live_headlines (query from_date to_date api_key : string)
  : list string * list stdout_line :=
  let response := requests_get (news_url query from_date to_date api_key) in
  if bool_decide (status_code response = 200%Z) then
    (title <$> articles response, [])
  else
    ([], [ErrorFetchingNews (status_code response)]).

(** Cell 2: the call and the fallback on an empty list. *)
Definition live_headlines (yesterday today api_key : string)
  : list string * list stdout_line :=
  let '(headlines, out) := fetch_live_headlines "AAPL" yesterday today api_key in
  let headlines :=
    match headlines with [] => demo_headlines | _ => headlines end in
  (headlines, out ++ [LiveHeadlines headlines]).

Definition get_bert_sentiment (headline : string) : Qc :=
  let result := sentiment_pipeline headline in
  if bool_decide (result.1 = "POSITIVE"%string) then result.2 else - result.2.

Definition np_mean (l : list Qc) : Qc :=
  foldr Qcplus 0 l / Qc_of_Z (Z.of_nat (length l)).

(** Cell 3. *)
Definition average_sentiment (headlines : list string) : Qc * list stdout_line :=
  match headlines with
  | [] => (0, [NoHeadlines])
  | _ => let avg := np_mean (get_bert_sentiment <$> headlines) in
         (avg, [AverageScore avg])
  end.

(** Cell 4, from the frame [data] and the scalar [avg_sentiment]. *)
Definition enhanced_features (avg_sentiment : Qc) (data : list Quote) : list FeatRow :=
  let df := dropna (indicator_rows data) in
  (fun r => mkFeat r (Fin avg_sentiment)) <$> df.

Definition enhanced_table (avg_sentiment : Qc) (data : list Quote) : list Labeled :=
  add_target (enhanced_features avg_sentiment data).

(** Cells 2 to 4 in sequence. *)
Definition enhanced_pipeline (yesterday today api_key : string) (data : list Quote)
  : list Labeled :=
  let headlines := (live_headlines yesterday today api_key).1 in
  let avg_sentiment := (average_sentiment headlines).1 in
  enhanced_table avg_sentiment data.
End Enhanced.

(** ** The splitter: [train_test_split(X, y, test_size=0.2, shuffle=False)]

    scikit-learn computes [n_test = ceil(test_size * n_samples)] and
    [n_train = n_samples - n_test], raises [ValueError] when the columns
    differ in length or when [n_train = 0], and without shuffling returns
    the rows [0 .. n_train - 1] and [n_train .. n_train + n_test - 1].
    The product [test_size * n_samples] is taken exactly, with
    [test_size] the fraction 2/10. *)

Definition test_size : Q := (2 # 10)%Q.

Definition n_test_of (n_samples : nat) : nat :=
  Z.to_nat (Qceiling (test_size * inject_Z (Z.of_nat n_samples))%Q).

Definition train_test_split {A B} (X : list A) (y : list B)
  : option (list A * list A * list B * list B) :=
  let n_samples := length X in
  if bool_decide (length y = n_samples) then
    let n_test := n_test_of n_samples in
    let n_train := (n_samples - n_test)%nat in
    if bool_decide (n_train = 0%nat) then None
    else Some (take n_train X, take n_test (drop n_train X),
               take n_train y, take n_test (drop n_train y))
  else None.

Definition features (r : Labeled) : fval * fval * fval * fval * fval :=
  (lClose r, MA20 (ind (feat r)), MA50 (ind (feat r)), RSI (ind (feat r)),
   Sentiment (feat r)).

(** The modelling cell: [X], [y] and the split. *)
Definition split_table (stock_data : list Labeled) :=
  let X := features <$> stock_data in
  let y := Target <$> stock_data in
  train_test_split X y.

(** [stock_data.iloc[X_train.shape[0]:]], the rows of the test partition. *)
Definition stock_data_test (stock_data : list Labeled) (n_train : nat) : list Labeled :=
  drop n_train stock_data.

(** Its counterpart, the rows of the training partition. *)
Definition stock_data_train (stock_data : list Labeled) (n_train : nat) : list Labeled :=
  take n_train stock_data.

(** ** The runs of the two notebooks

    [T] is the feature table that one run of the base or of the enhanced
    notebook builds from the price observations [data]. *)

Inductive is_feature_table (data : list Quote) : list Labeled -> Prop :=
  | ft_base choice compound :
      is_feature_table data (base_table choice compound data)
  | ft_enhanced avg_sentiment :
      is_feature_table data (enhanced_table avg_sentiment data).

(** ** Reference definition of the RSI, row by row

    Follows the wording of the specification: day-over-day deltas, gains
    (positive deltas, zero otherwise), losses (absolute value of negative
    deltas, zero otherwise), the mean of each over the trailing [period]
    rows, and [100 - 100 / (1 + mean_gain / mean_loss)]. *)

Global Instance Qc_inhabited : Inhabited Qc := populate 0.

Definition delta_at (close : list Qc) (j : nat) : option Qc :=
  match j with
  | O => None
  | S k => Some (close !!! j - close !!! k)
  end.

Definition gain_at (close : list Qc) (j : nat) : Qc :=
  match delta_at close j with
  | Some d => if bool_decide (0 < d) then d else 0
  | None => 0
  end.

Definition loss_at (close : list Qc) (j : nat) : Qc :=
  match delta_at close j with
  | Some d => if bool_decide (d < 0) then Qcabs.Qcabs d else 0
  | None => 0
  end.

Definition Qcsum (l : list Qc) : Qc := foldr Qcplus 0 l.

(** Mean of [f] over the [period] rows that end at row [i]. *)
Definition trailing_mean (f : nat -> Qc) (period i : nat) : Qc :=
  Qcsum (f <$> seq (S i - period) period) / Qc_of_Z (Z.of_nat period).

Definition mean_gain (close : list Qc) (period i : nat) : Qc :=
  trailing_mean (gain_at close) period i.

Definition mean_loss (close : list Qc) (period i : nat) : Qc :=
  trailing_mean (loss_at close) period i.

(** The formula on cells, with the division of the float model. *)
Definition rsi_formula (g l : Qc) : fval :=
  fsub (of_Z 100) (fdiv (of_Z 100) (fadd (of_Z 1) (fdiv (Fin g) (Fin l)))).

Definition rsi_reference (close : list Qc) (period i : nat) : fval :=
  if bool_decide (S i < period)%nat then NaN
  else rsi_formula (mean_gain close period i) (mean_loss close period i).

(** A row [i] has a price change in its RSI window. *)
Definition window_moves (close : list Qc) (period i : nat) : Prop :=
  exists j, (S i - period <= j <= i)%nat /\ (1 <= j)%nat /\
            close !!! j <> close !!! (j - 1)%nat.

(** ** The frame, row by row

    What row [i] of the frame holds once the indicator columns are added
    (proved below), and the rows that survive the first [dropna]. *)

Definition indicator_row (data : list Quote) (i : nat) (q : Quote) : IndRow :=
  let close := qClose <$> data in
  mkInd (qDate q) (Fin (qClose q))
    (if bool_decide (S i < 20)%nat then NaN
     else Fin (trailing_mean (fun j => close !!! j) 20 i))
    (if bool_decide (S i < 50)%nat then NaN
     else Fin (trailing_mean (fun j => close !!! j) 50 i))
    (rsi_reference close default_period i).

(** The rows [dropna] keeps after the indicators are computed. *)
Definition kept_rows (data : list Quote) : list IndRow :=
  dropna (indicator_rows data).

(** ** The RSI column in float64

    The cells above leave out the rounding of float64.  For the RSI it
    matters, because of the way pandas takes a rolling mean: it does not
    add up each window, it keeps one running sum per column, from which
    it subtracts the value that leaves the window and to which it adds
    the value that enters, each step rounded.  This section models the
    column with binary64 cells ([SpecFloat] of the standard library:
    53 bits of precision, round to nearest even, signed zeros and
    infinities, one NaN) and the rolling mean as pandas computes it:
    [Rolling.mean] replaces the infinities of its input by NaN
    ([_prep_values]) and calls [roll_mean] of
    [pandas/_libs/window/aggregations.pyx], with its helpers [add_mean],
    [remove_mean] and [calc_mean], on the windows of a fixed-size
    indexer ([start = max(0, i + 1 - window)], [end = i + 1]) and
    [min_periods = window]. *)

Module Float64.

Definition float64 : Type := SpecFloat.spec_float.
Definition prec : Z := 53%Z.
Definition emax : Z := 1024%Z.

Definition nan : float64 := SpecFloat.S754_nan.
Definition zero : float64 := SpecFloat.S754_zero false.

Global Instance float64_inhabited : Inhabited float64 := populate nan.

Definition add : float64 -> float64 -> float64 := SpecFloat.SFadd prec emax.
Definition sub : float64 -> float64 -> float64 := SpecFloat.SFsub prec emax.
Definition div : float64 -> float64 -> float64 := SpecFloat.SFdiv prec emax.
Definition opp : float64 -> float64 := SpecFloat.SFopp.
Definition eqb : float64 -> float64 -> bool := SpecFloat.SFeqb.
Definition ltb : float64 -> float64 -> bool := SpecFloat.SFltb.

(** The float64 nearest to an integer. *)
Definition of_Z (z : Z) : float64 :=
  SpecFloat.binary_normalize prec emax z 0%Z false.

Definition signbit (x : float64) : bool :=
  match x with
  | SpecFloat.S754_zero s | SpecFloat.S754_infinity s
  | SpecFloat.S754_finite s _ _ => s
  | SpecFloat.S754_nan => false
  end.

Definition isinf (x : float64) : bool :=
  match x with SpecFloat.S754_infinity _ => true | _ => false end.

(** *** Series operations *)

Definition shift1 (s : list float64) : list float64 :=
  imap (fun i _ => match i with O => nan | S j => s !!! j end) s.

Definition diff (s : list float64) : list float64 := zip_with sub s (shift1 s).

Definition where_ (s : list float64) (cond : list bool) (other : float64)
  : list float64 :=
  zip_with (fun x (c : bool) => if c then x else other) s cond.

Definition gt_scalar (s : list float64) (c : float64) : list bool :=
  (fun x => ltb c x) <$> s.

Definition lt_scalar (s : list float64) (c : float64) : list bool :=
  (fun x => ltb x c) <$> s.

Definition neg (s : list float64) : list float64 := opp <$> s.

(** *** [roll_mean]

    The local variables of the loop: the number of observations in the
    window that are not NaN, the number of those with the sign bit set,
    the running sum, the two compensation terms of the Kahan summation
    (one for the additions, one for the removals), and the last value
    added with the number of times it was added in a row. *)

Record mean_state := mkState {
  nobs : Z;
  neg_ct : Z;
  sum_x : float64;
  compensation_add : float64;
  compensation_remove : float64;
  num_consecutive_same_value : Z;
  prev_value : float64 }.

(** [add_mean]: a value enters the window. *)
Definition add_mean (st : mean_state) (val : float64) : mean_state :=
  if eqb val val then
    let y := sub val (compensation_add st) in
    let t := add (sum_x st) y in
    {| nobs := (nobs st + 1)%Z;
       neg_ct := if signbit val then (neg_ct st + 1)%Z else neg_ct st;
       sum_x := t;
       compensation_add := sub (sub t (sum_x st)) y;
       compensation_remove := compensation_remove st;
       num_consecutive_same_value :=
         if eqb val (prev_value st) then (num_consecutive_same_value st + 1)%Z
         else 1%Z;
       prev_value := val |}
  else st.

(** [remove_mean]: a value leaves the window. *)
Definition remove_mean (st : mean_state) (val : float64) : mean_state :=
  if eqb val val then
    let y := sub (opp val) (compensation_remove st) in
    let t := add (sum_x st) y in
    {| nobs := (nobs st - 1)%Z;
       neg_ct := if signbit val then (neg_ct st - 1)%Z else neg_ct st;
       sum_x := t;
       compensation_add := compensation_add st;
       compensation_remove := sub (sub t (sum_x st)) y;
       num_consecutive_same_value := num_consecutive_same_value st;
       prev_value := prev_value st |}
  else st.

(** [calc_mean]: the cell written for a row. *)
Definition calc_mean (minp : Z) (st : mean_state) : float64 :=
  if (minp <=? nobs st)%Z && (0 <? nobs st)%Z then
    let result := div (sum_x st) (of_Z (nobs st)) in
    if (nobs st <=? num_consecutive_same_value st)%Z then prev_value st
    else if (neg_ct st =? 0)%Z && ltb result zero then zero
    else if (neg_ct st =? nobs st)%Z && ltb zero result then zero
    else result
  else nan.

Definition fresh_state (prev : float64) : mean_state :=
  mkState 0%Z 0%Z zero zero zero 0%Z prev.

(** The bounds of the window of row [i]. *)
Definition window_start (window i : nat) : nat := (S i - window)%nat.
Definition window_end (i : nat) : nat := S i.

(** [values[a:b]]. *)
Definition slice (values : list float64) (a b : nat) : list float64 :=
  take (b - a)%nat (drop a values).

(** The branch of the loop that starts a window from nothing. *)
Definition setup (values : list float64) (s e : nat) : mean_state :=
  foldl add_mean (fresh_state (values !!! s)) (slice values s e).

(** One turn of the loop over the rows: the state left by the previous
    row is updated, unless the row is the first one or its window shares
    nothing with the previous one.  (The bounds of a fixed-size window
    are monotonic, so the third condition of the source never applies.) *)
Definition roll_row (values : list float64) (window : nat)
    (st : mean_state) (i : nat) : mean_state :=
  let s := window_start window i in
  let e := window_end i in
  match i with
  | O => setup values s e
  | S i' =>
      if bool_decide (window_end i' <= s)%nat then setup values s e
      else
        let st := foldl remove_mean st (slice values (window_start window i') s) in
        foldl add_mean st (slice values (window_end i') e)
  end.

Fixpoint roll_rows (values : list float64) (window : nat)
    (st : mean_state) (rows : list nat) : list mean_state :=
  match rows with
  | [] => []
  | i :: rows =>
      let st := roll_row values window st i in
      st :: roll_rows values window st rows
  end.

Definition roll_mean (values : list float64) (window : nat) (minp : Z)
  : list float64 :=
  calc_mean minp <$>
    roll_rows values window (fresh_state nan) (seq 0 (length values)).

(** [_prep_values]: the infinities become NaN. *)
Definition prep_cell (x : float64) : float64 := if isinf x then nan else x.

Definition prep_values (values : list float64) : list float64 :=
  prep_cell <$> values.

(** [s.rolling(window).mean()]. *)
Definition rolling_mean (window : nat) (s : list float64) : list float64 :=
  roll_mean (prep_values s) window (Z.of_nat window).

(** *** [compute_RSI] and [compute_dummy_RSI] *)

Definition compute_RSI (series : list float64) (period : nat) : list float64 :=
  let delta := diff series in
  let gain := rolling_mean period (where_ delta (gt_scalar delta (of_Z 0)) (of_Z 0)) in
  let loss := rolling_mean period (neg (where_ delta (lt_scalar delta (of_Z 0)) (of_Z 0))) in
  let RS := zip_with div gain loss in
  (fun x => sub (of_Z 100) x) <$>
    ((fun x => div (of_Z 100) x) <$> ((fun x => add (of_Z 1) x) <$> RS)).

Definition compute_dummy_RSI (series : list float64) (period : nat) : list float64 :=
  compute_RSI series period.

(** The columns that are averaged, and the local variables [gain] and
    [loss]. *)
Definition rsi_gains (series : list float64) : list float64 :=
  let delta := diff series in
  where_ delta (gt_scalar delta (of_Z 0)) (of_Z 0).

Definition rsi_losses (series : list float64) : list float64 :=
  let delta := diff series in
  neg (where_ delta (lt_scalar delta (of_Z 0)) (of_Z 0)).

Definition rsi_gain (series : list float64) (period : nat) : list float64 :=
  rolling_mean period (rsi_gains series).

Definition rsi_loss (series : list float64) (period : nat) : list float64 :=
  rolling_mean period (rsi_losses series).

(** The last line of [compute_RSI] on one cell. *)
Definition rsi_cell (g l : float64) : float64 :=
  sub (of_Z 100) (div (of_Z 100) (add (of_Z 1) (div g l))).



(** *** The reference, in float64

    The wording of the specification evaluated in float64: the mean of
    the [period] values of the window, added up from the oldest one. *)

Definition window_mean (period : nat) (s : list float64) (i : nat) : float64 :=
  div (foldl add zero (slice s (S i - period)%nat (S i))) (of_Z (Z.of_nat period)).

Definition rsi_reference (series : list float64) (period i : nat) : float64 :=
  if bool_decide (S i < period)%nat then nan
  else rsi_cell (window_mean period (rsi_gains series) i)
                (window_mean period (rsi_losses series) i).

End Float64.

(** ** Example inputs *)

Definition closes_of_Z (l : list Z) : list Qc := Qc_of_Z <$> l.

Definition quotes_of_Z (l : list Z) : list Quote :=
  imap (fun i c => mkQuote (Z.of_nat i) (Qc_of_Z c)) l.

(** Fifty-two days of rising prices, 1, 2, ..., 52. *)
Definition rising_quotes : list Quote := quotes_of_Z (seqZ 1 52).

(** Fifty days at the same price. *)
Definition flat_quotes : list Quote := quotes_of_Z (replicate 50 100%Z).

(** Fifty days, 1, 2, ..., 50. *)
Definition fifty_quotes : list Quote := quotes_of_Z (seqZ 1 50).

(** A news response with two articles, and the response to a wrong key. *)
Definition ok_response : Response :=
  mkResponse 200 [ mkArticle "Apple unveils new chip";
                   mkArticle "Markets close higher" ].
Definition error_response : Response := mkResponse 401 [].

(** Fifty-five days, 1, 2, ..., 55. *)
Definition fifty_five_quotes : list Quote := quotes_of_Z (seqZ 1 55).


(** Sixteen closes: fifteen days up, the last one down. *)
Definition zigzag_closes : list Qc :=
  closes_of_Z [1;2;3;4;5;6;7;8;9;10;11;12;13;14;15;14]%Z.


(** Twenty-four closes of 64 or 128, but for one close of 2^60. *)
Definition dip_closes : list Z :=
  [64; 128; 128; 64; 2 ^ 60; 128; 64; 128; 128; 64; 64; 128; 128; 128; 64]%Z
  ++ replicate 9 128%Z.

(** Twenty-three closes of 100 or 200, but for one close of 2^62. *)
Definition step_closes : list Z :=
  [100; 200; 2 ^ 62; 100; 200; 200; 200; 100; 200; 100]%Z
  ++ replicate 11 200%Z ++ [100; 200]%Z.

(** Sixty-one days: 100 up to day 36, 101 from day 37 to day 59, then
    105 on day 60. *)
Definition plateau_quotes : list Quote :=
  quotes_of_Z (replicate 37 100%Z ++ replicate 23 101%Z ++ [105%Z]).

(** ** Base notebook: evaluation and plot

    The fitted classifier is a black box: from the training rows, their
    labels and the test rows it gives the predictions for the test
    rows. *)

(** [accuracy_score(y_true, y_pred)]: the fraction of rows where the two
    agree; raises when the lengths differ. *)
Definition accuracy_score (y_true y_pred : list Z) : option fval :=
  if bool_decide (length y_true = length y_pred) then
    let hits := filter (fun p : Z * Z => p.1 = p.2) (zip y_true y_pred) in
    Some (fdiv (of_nat (length hits)) (of_nat (length y_true)))
  else None.

(** A test row with its prediction. *)
Record Plotted := mkPlotted { plotted_row : Labeled; Predicted : Z }.

(** [df.assign(Predicted=predictions)]: raises when the new column and
    the frame differ in length. *)
Definition assign_predicted (df : list Labeled) (predictions : list Z)
  : option (list Plotted) :=
  if bool_decide (length predictions = length df) then
    Some (zip_with mkPlotted df predictions)
  else None.

Definition plot_point (r : Plotted) : Z * fval :=
  (lDate (plotted_row r), lClose (plotted_row r)).

Section Evaluation.
(** [model.fit(X_train, y_train)] then [model.predict(X_test)]. *)
Variable fit_predict :
  list (fval * fval * fval * fval * fval) -> list Z ->
  list (fval * fval * fval * fval * fval) -> list Z.

(** The evaluation cell: the accuracy on the test partition. *)
Definition model_accuracy (stock_data : list Labeled) : option fval :=
  match split_table stock_data with
  | Some (X_train, X_test, y_train, y_test) =>
      let predictions := fit_predict X_train y_train X_test in
      accuracy_score y_test predictions
  | None => None
  end.

(** The plot cell: the points of the price line, and the points marked
    as predicted upward movements. *)
Definition plot_cell (stock_data : list Labeled)
  : option (list (Z * fval) * list (Z * fval)) :=
  match split_table stock_data with
  | Some (X_train, X_test, y_train, y_test) =>
      let predictions := fit_predict X_train y_train X_test in
      let test_rows := stock_data_test stock_data (length X_train) in
      match assign_predicted test_rows predictions with
      | Some df =>
          Some (plot_point <$> df,
                plot_point <$> filter (fun r => Predicted r = 1%Z) df)
      | None => None
      end
  | None => None
  end.
End Evaluation.

(** * Properties *)

(** ** Float cells *)

Lemma of_Z_0 : of_Z 0 = Fin 0.
Proof. unfold of_Z. by rewrite Z2Qc_inj_0. Qed.

Lemma Qcltb_true a b : Qcltb a b = true <-> a < b.
Proof. unfold Qcltb. by rewrite bool_decide_eq_true. Qed.

Lemma Qc_of_nat_pos n : (0 < n)%nat -> Qc_of_Z (Z.of_nat n) <> 0.
Proof.
  intros Hn E. apply (f_equal this) in E. simpl in E.
  injection E as E. lia.
Qed.

Lemma fsum_fin (l : list Qc) : fsum (Fin <$> l) = Fin (Qcsum l).
Proof.
  induction l as [|a l IH]; [done|].
  rewrite fmap_cons. unfold fsum, Qcsum in *. cbn [foldr]. by rewrite IH.
Qed.

Lemma fdiv_fin a b : b <> 0 -> fdiv (Fin a) (Fin b) = Fin (a / b).
Proof. intros Hb. unfold fdiv. by rewrite bool_decide_eq_false_2. Qed.

(** ** Series, row by row *)

Lemma length_shift1 s : length (shift1 s) = length s.
Proof. apply length_imap. Qed.

Lemma length_shift_back s : length (shift_back s) = length s.
Proof. apply length_imap. Qed.

Lemma length_diff s : length (diff s) = length s.
Proof.
  unfold diff. rewrite length_zip_with, length_shift1. lia.
Qed.

Lemma length_rolling_mean w s : length (rolling_mean w s) = length s.
Proof. apply length_imap. Qed.

Lemma lookup_diff_fin (close : list Qc) j :
  (j < length close)%nat ->
  diff (Fin <$> close) !! j =
    Some (match delta_at close j with Some d => Fin d | None => NaN end).
Proof.
  intros Hj. unfold diff, shift1.
  rewrite lookup_zip_with, list_lookup_imap, list_lookup_fmap.
  destruct (lookup_lt_is_Some_2 close j Hj) as [a Ha]. rewrite Ha. simpl.
  destruct j as [|k]; [done|]. simpl.
  assert (Hk : (k < length close)%nat) by lia.
  destruct (lookup_lt_is_Some_2 close k Hk) as [b Hb].
  rewrite (list_lookup_total_correct _ _ _ Ha).
  rewrite (list_lookup_total_correct _ _ _ Hb).
  rewrite (list_lookup_total_correct (Fin <$> close) k (Fin b))
    by (by rewrite list_lookup_fmap, Hb).
  done.
Qed.

Lemma lookup_gain_series (close : list Qc) j :
  (j < length close)%nat ->
  let delta := diff (Fin <$> close) in
  where_ delta (gt_scalar delta (of_Z 0)) (of_Z 0) !! j
  = Some (Fin (gain_at close j)).
Proof.
  intros Hj delta. unfold where_, gt_scalar.
  rewrite lookup_zip_with, list_lookup_fmap. subst delta.
  rewrite lookup_diff_fin by done. simpl.
  unfold gain_at. rewrite of_Z_0.
  destruct (delta_at close j) as [d|]; simpl; [|done].
  rewrite ?Z2Qc_inj_0.
  unfold Qcltb. by destruct (bool_decide (0 < d)).
Qed.

Lemma lookup_loss_series (close : list Qc) j :
  (j < length close)%nat ->
  let delta := diff (Fin <$> close) in
  neg (where_ delta (lt_scalar delta (of_Z 0)) (of_Z 0)) !! j
  = Some (Fin (loss_at close j)).
Proof.
  intros Hj delta. unfold neg, where_, lt_scalar.
  rewrite list_lookup_fmap, lookup_zip_with, list_lookup_fmap. subst delta.
  rewrite lookup_diff_fin by done. simpl.
  unfold loss_at. rewrite of_Z_0.
  assert (E0 : - 0 = 0) by ring.
  destruct (delta_at close j) as [d|]; simpl; [|by rewrite E0].
  rewrite ?Z2Qc_inj_0.
  unfold Qcltb. case_bool_decide as Hd; simpl; [|by rewrite E0].
  by rewrite Qcabs.Qcabs_neg by (by apply Qclt_le_weak).
Qed.

Lemma series_ext (s : Series) (f : nat -> Qc) :
  (forall j, (j < length s)%nat -> s !! j = Some (Fin (f j))) ->
  s = Fin <$> (f <$> seq 0 (length s)).
Proof.
  intros Hs. apply list_eq. intros j.
  rewrite !list_lookup_fmap.
  destruct (decide (j < length s)%nat) as [Hj|Hj].
  - rewrite Hs, lookup_seq_lt by done. done.
  - rewrite lookup_ge_None_2, lookup_seq_ge by lia. done.
Qed.

Lemma window_at_fin (f : nat -> Qc) n w i :
  (w <= S i)%nat -> (i < n)%nat ->
  window_at w (Fin <$> (f <$> seq 0 n)) i = Fin <$> (f <$> seq (S i - w) w).
Proof.
  intros Hw Hi. unfold window_at.
  rewrite <- !fmap_drop, <- !fmap_take, drop_seq, take_seq.
  do 3 f_equal; lia.
Qed.

Lemma lookup_rolling_mean_fin (f : nat -> Qc) n w i :
  (0 < w)%nat -> (i < n)%nat ->
  rolling_mean w (Fin <$> (f <$> seq 0 n)) !! i
  = Some (if bool_decide (S i < w)%nat then NaN else Fin (trailing_mean f w i)).
Proof.
  intros Hw Hi. unfold rolling_mean.
  rewrite list_lookup_imap, !list_lookup_fmap, lookup_seq_lt by done. simpl.
  case_bool_decide as Hiw; [done|].
  rewrite window_at_fin, fsum_fin by lia.
  unfold of_nat, of_Z. rewrite fdiv_fin by (by apply Qc_of_nat_pos).
  done.
Qed.

Lemma length_gain_series (s : Series) :
  length (where_ (diff s) (gt_scalar (diff s) (of_Z 0)) (of_Z 0)) = length s.
Proof.
  unfold where_, gt_scalar. rewrite length_zip_with, length_fmap, length_diff. lia.
Qed.

Lemma length_loss_series (s : Series) :
  length (neg (where_ (diff s) (lt_scalar (diff s) (of_Z 0)) (of_Z 0))) = length s.
Proof.
  unfold neg, where_, lt_scalar.
  rewrite length_fmap, length_zip_with, length_fmap, length_diff. lia.
Qed.

Lemma gain_series_fin (close : list Qc) :
  let delta := diff (Fin <$> close) in
  where_ delta (gt_scalar delta (of_Z 0)) (of_Z 0)
  = Fin <$> (gain_at close <$> seq 0 (length close)).
Proof.
  intros delta. etrans; [apply (series_ext _ (gain_at close))|].
  - intros j. subst delta. rewrite length_gain_series, length_fmap.
    apply lookup_gain_series.
  - subst delta. by rewrite length_gain_series, length_fmap.
Qed.

Lemma loss_series_fin (close : list Qc) :
  let delta := diff (Fin <$> close) in
  neg (where_ delta (lt_scalar delta (of_Z 0)) (of_Z 0))
  = Fin <$> (loss_at close <$> seq 0 (length close)).
Proof.
  intros delta. etrans; [apply (series_ext _ (loss_at close))|].
  - intros j. subst delta. rewrite length_loss_series, length_fmap.
    apply lookup_loss_series.
  - subst delta. by rewrite length_loss_series, length_fmap.
Qed.

Lemma lookup_rsi_gain (close : list Qc) p i :
  (0 < p)%nat -> (i < length close)%nat ->
  rsi_gain (Fin <$> close) p !! i
  = Some (if bool_decide (S i < p)%nat then NaN else Fin (mean_gain close p i)).
Proof.
  intros Hp Hi. unfold rsi_gain. cbv zeta.
  rewrite gain_series_fin. by apply lookup_rolling_mean_fin.
Qed.

Lemma lookup_rsi_loss (close : list Qc) p i :
  (0 < p)%nat -> (i < length close)%nat ->
  rsi_loss (Fin <$> close) p !! i
  = Some (if bool_decide (S i < p)%nat then NaN else Fin (mean_loss close p i)).
Proof.
  intros Hp Hi. unfold rsi_loss. cbv zeta.
  rewrite loss_series_fin. by apply lookup_rolling_mean_fin.
Qed.

Lemma compute_RSI_unfold series period :
  compute_RSI series period
  = rsub (of_Z 100) (rdiv (of_Z 100) (radd (of_Z 1) (rsi_RS series period))).
Proof. reflexivity. Qed.

Lemma lookup_rsi_RS (close : list Qc) p i :
  (0 < p)%nat -> (i < length close)%nat ->
  rsi_RS (Fin <$> close) p !! i
  = Some (if bool_decide (S i < p)%nat then NaN
          else fdiv (Fin (mean_gain close p i)) (Fin (mean_loss close p i))).
Proof.
  intros Hp Hi. unfold rsi_RS, div.
  rewrite lookup_zip_with, lookup_rsi_gain, lookup_rsi_loss by done. simpl.
  by case_bool_decide.
Qed.

Lemma lookup_compute_RSI (close : list Qc) p i :
  (0 < p)%nat -> (i < length close)%nat ->
  compute_RSI (Fin <$> close) p !! i = Some (rsi_reference close p i).
Proof.
  intros Hp Hi. rewrite compute_RSI_unfold. unfold rsub, rdiv, radd.
  rewrite !list_lookup_fmap, lookup_rsi_RS by done. simpl.
  unfold rsi_reference, rsi_formula. by case_bool_decide.
Qed.

Lemma length_compute_RSI s p : length (compute_RSI s p) = length s.
Proof.
  rewrite compute_RSI_unfold. unfold rsub, rdiv, radd, rsi_RS, div, rsi_gain, rsi_loss.
  cbv zeta. rewrite !length_fmap, length_zip_with, !length_rolling_mean.
  rewrite length_gain_series, length_loss_series. lia.
Qed.

(** ** Gains, losses and their means *)

Lemma Qcplus_nonneg_eq_0 (a b : Qc) : 0 <= a -> 0 <= b -> a + b = 0 -> a = 0 /\ b = 0.
Proof.
  intros Ha Hb Hab.
  destruct (Qcle_lt_or_eq _ _ Ha) as [Ha'|Ha'].
  - exfalso. apply (Qclt_not_eq 0 (a + b)); [by apply Qcplus_pos_nonneg|done].
  - subst a. split; [done|]. by rewrite Qcplus_0_l in Hab.
Qed.

Lemma Qcsum_nonneg (l : list Qc) : Forall (fun x => 0 <= x) l -> 0 <= Qcsum l.
Proof.
  induction 1 as [|x l Hx _ IH]; unfold Qcsum; simpl.
  - apply Qcle_refl.
  - by apply Qcplus_nonneg_nonneg.
Qed.

Lemma Qcsum_eq_0 (l : list Qc) :
  Forall (fun x => 0 <= x) l -> Qcsum l = 0 <-> Forall (fun x => x = 0) l.
Proof.
  induction 1 as [|x l Hx Hl IH].
  - split; [constructor|done].
  - split.
    + intros E. unfold Qcsum in E. simpl in E.
      apply Qcplus_nonneg_eq_0 in E as [E1 E2]; [|done|by apply Qcsum_nonneg].
      constructor; [done|by apply IH].
    + intros E. apply Forall_cons in E as [-> E]. apply IH in E.
      unfold Qcsum in *. simpl. by rewrite E, Qcplus_0_l.
Qed.

Lemma Qcdiv_eq_0 (x w : Qc) : w <> 0 -> x / w = 0 <-> x = 0.
Proof.
  intros Hw. split.
  - intros E. rewrite <- (Qcmult_div_r x w Hw), E. ring.
  - intros ->. unfold Qcdiv. ring.
Qed.

Lemma Qcdiv_nonneg (x w : Qc) : 0 <= x -> 0 < w -> 0 <= x / w.
Proof.
  intros Hx Hw. unfold Qcdiv. apply Qcmult_nonneg_nonneg; [done|].
  apply Qclt_le_weak. by apply Qcinv_pos.
Qed.

Lemma gain_at_nonneg close j : 0 <= gain_at close j.
Proof.
  unfold gain_at. destruct (delta_at close j) as [d|]; [|apply Qcle_refl].
  case_bool_decide; [by apply Qclt_le_weak|apply Qcle_refl].
Qed.

Lemma loss_at_nonneg close j : 0 <= loss_at close j.
Proof.
  unfold loss_at. destruct (delta_at close j) as [d|]; [|apply Qcle_refl].
  case_bool_decide; [apply Qcabs.Qcabs_nonneg|apply Qcle_refl].
Qed.

Lemma Qclt_irrefl (x : Qc) : ~ x < x.
Proof. intros H. by apply Qclt_not_eq in H. Qed.

(** Row [j] has neither a gain nor a loss exactly when it is row 0 or
    its close equals the close of the row before. *)
Lemma gain_loss_zero close j :
  gain_at close j = 0 /\ loss_at close j = 0 <->
  j = 0%nat \/ close !!! j = close !!! (j - 1)%nat.
Proof.
  unfold gain_at, loss_at, delta_at. destruct j as [|k]; [by split; [left|]|].
  replace (S k - 1)%nat with k by lia.
  set (a := close !!! S k). set (b := close !!! k).
  split.
  - intros [Hg Hl]. right.
    destruct (decide (0 < a - b)) as [H1|H1].
    { rewrite bool_decide_eq_true_2 in Hg by done.
      rewrite Hg in H1. by apply Qclt_irrefl in H1. }
    destruct (decide (a - b < 0)) as [H2|H2].
    { rewrite bool_decide_eq_true_2 in Hl by done.
      apply Qcabs.Qcabs_null in Hl. rewrite Hl in H2.
      by apply Qclt_irrefl in H2. }
    apply Qcnot_lt_le in H1, H2.
    assert (E : a - b = 0) by (by apply Qcle_antisym).
    rewrite <- (Qcplus_0_l b), <- E. ring.
  - intros [?|E]; [done|]. rewrite E.
    assert (E0 : b - b = 0) by ring. rewrite E0.
    rewrite !bool_decide_eq_false_2; [done|..]; apply Qclt_irrefl.
Qed.

Lemma Qc_of_nat_gt_0 n : (0 < n)%nat -> 0 < Qc_of_Z (Z.of_nat n).
Proof. intros Hn. unfold Qclt, Qlt. simpl. lia. Qed.



Lemma trailing_mean_eq_0 (f : nat -> Qc) p i :
  (0 < p)%nat -> (forall j, 0 <= f j) ->
  trailing_mean f p i = 0 <-> forall j, (S i - p <= j < S i - p + p)%nat -> f j = 0.
Proof.
  intros Hp Hf. unfold trailing_mean.
  rewrite Qcdiv_eq_0 by (by apply Qc_of_nat_pos).
  rewrite Qcsum_eq_0 by (apply Forall_fmap, Forall_forall; intros j _; apply Hf).
  rewrite Forall_fmap, Forall_forall. simpl.
  split; intros H j Hj; apply H.
  - apply elem_of_seq. lia.
  - apply elem_of_seq in Hj. lia.
Qed.

(** Both means vanish exactly when no price moved inside the window. *)
Lemma means_zero_iff close p i :
  (0 < p <= S i)%nat ->
  mean_gain close p i = 0 /\ mean_loss close p i = 0 <-> ~ window_moves close p i.
Proof.
  intros Hp. unfold mean_gain, mean_loss.
  rewrite !trailing_mean_eq_0 by (lia || apply gain_at_nonneg || apply loss_at_nonneg).
  unfold window_moves. split.
  - intros [Hg Hl] (j & Hj & Hj1 & Hne).
    destruct (proj1 (gain_loss_zero close j)) as [?|?]; [|lia|done].
    split; [apply Hg|apply Hl]; lia.
  - intros Hno. cut (forall j, (S i - p <= j < S i - p + p)%nat ->
                               gain_at close j = 0 /\ loss_at close j = 0).
    { intros H. split; intros j Hj; by apply H. }
    intros j Hj. apply gain_loss_zero.
    destruct (decide (j = 0%nat)) as [|Hj0]; [by left|right].
    destruct (decide (close !!! j = close !!! (j - 1)%nat)) as [|Hne]; [done|].
    destruct Hno. exists j. split_and!; [lia..|done].
Qed.

(** ** The RSI formula on cells *)

Lemma Qc_of_Z_100_ne_0 : Qc_of_Z 100 <> 0.
Proof. intros E. apply (f_equal this) in E. discriminate E. Qed.

Lemma Qc_0_lt_1 : (0 : Qc) < 1.
Proof. unfold Qclt, Qlt. simpl. lia. Qed.

(** The formula is NaN exactly when both means are zero (the 0/0 case). *)
Lemma rsi_formula_nan g l : isna (rsi_formula g l) = true <-> g = 0 /\ l = 0.
Proof.
  unfold rsi_formula, of_Z, fdiv at 2.
  destruct (decide (l = 0)) as [->|Hl].
  - rewrite bool_decide_eq_true_2 by done.
    destruct (decide (g = 0)) as [->|Hg].
    + rewrite bool_decide_eq_true_2 by done. simpl. intuition (discriminate || congruence || auto).
    + rewrite bool_decide_eq_false_2 by done. simpl. intuition (discriminate || congruence || auto).
  - rewrite bool_decide_eq_false_2 by done. unfold fadd at 1, fdiv.
    rewrite (bool_decide_eq_false_2 (Qc_of_Z 100 = 0)) by apply Qc_of_Z_100_ne_0.
    case_bool_decide; simpl; intuition (discriminate || congruence || auto).
Qed.



Lemma rsi_reference_nan close p i :
  (0 < p)%nat ->
  isna (rsi_reference close p i) = true <->
  (S i < p)%nat \/ ~ window_moves close p i.
Proof.
  intros Hp. unfold rsi_reference. case_bool_decide as Hi.
  - intuition (discriminate || congruence || auto).
  - rewrite rsi_formula_nan, means_zero_iff by lia. intuition (discriminate || congruence || auto).
Qed.



Lemma window_moves_Exists close p i :
  window_moves close p i <->
  Exists (fun j => (1 <= j)%nat /\ close !!! j <> close !!! (j - 1)%nat)
         (seq (S i - p) (S i - (S i - p))).
Proof.
  unfold window_moves. rewrite Exists_exists. setoid_rewrite elem_of_seq.
  split; intros (j & Hj & Hj1 & Hne); exists j.
  - split; [lia|]. tauto.
  - split_and!; [lia..|tauto].
Qed.

Global Instance window_moves_dec close p i : Decision (window_moves close p i).
Proof.
  refine (cast_if (decide (Exists
    (fun j => (1 <= j)%nat /\ close !!! j <> close !!! (j - 1)%nat)
    (seq (S i - p) (S i - (S i - p))))));
    by rewrite window_moves_Exists.
Defined.

(** ** Frames *)

Lemma dropna_all {A} `{HasNa A} (df : list A) :
  Forall (fun r => has_na r = false) df -> dropna df = df.
Proof.
  unfold dropna. induction 1 as [|r df Hr _ IH]; [done|].
  by rewrite filter_cons_True, IH.
Qed.

Lemma dropna_no_na {A} `{HasNa A} (df : list A) :
  Forall (fun r => has_na r = false) (dropna df).
Proof.
  apply Forall_forall. intros r Hr. by apply list_elem_of_filter in Hr as [? _].
Qed.

Lemma dropna_nil_iff {A} `{HasNa A} (df : list A) :
  dropna df = [] <-> Forall (fun r => has_na r = true) df.
Proof.
  unfold dropna. induction df as [|r df IH]; [by split; [constructor|]|].
  rewrite filter_cons, Forall_cons. destruct (decide (has_na r = false)) as [E|E].
  - split; [done|]. intros [E' _]. congruence.
  - rewrite IH. apply not_false_is_true in E. intuition (discriminate || congruence || auto).
Qed.

Lemma list_as_seq (close : list Qc) :
  close = (fun j => close !!! j) <$> seq 0 (length close).
Proof.
  apply list_eq. intros j. rewrite list_lookup_fmap.
  destruct (decide (j < length close)%nat) as [Hj|Hj].
  - rewrite lookup_seq_lt by done. simpl.
    destruct (lookup_lt_is_Some_2 close j Hj) as [a Ha].
    by rewrite Ha, (list_lookup_total_correct _ _ _ Ha).
  - rewrite lookup_ge_None_2, lookup_seq_ge by lia. done.
Qed.

(** A moving average of the close column, row by row. *)
Lemma lookup_rolling_mean_close (close : list Qc) w i :
  (0 < w)%nat -> (i < length close)%nat ->
  rolling_mean w (Fin <$> close) !! i
  = Some (if bool_decide (S i < w)%nat then NaN
          else Fin (trailing_mean (fun j => close !!! j) w i)).
Proof.
  intros Hw Hi. rewrite (list_as_seq close) at 1.
  by apply lookup_rolling_mean_fin.
Qed.

Lemma lookup_indicator_rows data i :
  indicator_rows data !! i = indicator_row data i <$> data !! i.
Proof.
  unfold indicator_rows, with_column. cbv zeta.
  change (fun q => Fin (qClose q)) with (Fin ∘ qClose).
  rewrite (list_fmap_compose qClose Fin).
  rewrite !lookup_zip_with, !list_lookup_fmap.
  destruct (data !! i) as [q|] eqn:Hq; [|done]. simpl.
  assert (Hi : (i < length (qClose <$> data))%nat).
  { rewrite length_fmap. by apply lookup_lt_Some in Hq. }
  rewrite !lookup_rolling_mean_close by (done || lia). simpl.
  rewrite lookup_compute_RSI by (done || unfold default_period; lia).
  done.
Qed.

Lemma length_indicator_rows data : length (indicator_rows data) = length data.
Proof.
  unfold indicator_rows, with_column. cbv zeta.
  rewrite !length_zip_with, !length_rolling_mean, length_compute_RSI, !length_fmap.
  lia.
Qed.

Lemma indicator_rows_imap data : indicator_rows data = imap (indicator_row data) data.
Proof.
  apply list_eq. intros i. by rewrite lookup_indicator_rows, list_lookup_imap.
Qed.

(** A row has a missing value during the 49 rows of warm-up of [MA50],
    and later when no price moved inside its RSI window. *)
Lemma has_na_indicator_row data i q :
  has_na (indicator_row data i q) = true <->
  (i < 49)%nat \/ ~ window_moves (qClose <$> data) default_period i.
Proof.
  unfold has_na, IndRow_has_na, indicator_row. cbn [Date Close MA20 MA50 RSI].
  unfold has_na at 1 2, Z_has_na, fval_has_na. cbn [isna orb].
  rewrite !orb_true_iff.
  change (has_na (rsi_reference (qClose <$> data) default_period i))
    with (isna (rsi_reference (qClose <$> data) default_period i)).
  rewrite rsi_reference_nan by (unfold default_period; lia).
  unfold default_period, has_na, fval_has_na.
  repeat case_bool_decide; simpl; intuition (try discriminate; try lia).
Qed.

(** ** The label column and the second [dropna] *)

Lemma length_target_column (s : Series) : length (target_column s) = length s.
Proof.
  unfold target_column, astype_int, gt.
  rewrite length_fmap, length_zip_with, length_shift_back. lia.
Qed.

Lemma lookup_target_column (s : Series) i :
  target_column s !! i
  = (fun c => if fgt (default NaN (s !! S i)) c then 1%Z else 0%Z) <$> s !! i.
Proof.
  unfold target_column, astype_int, gt, shift_back.
  rewrite list_lookup_fmap, lookup_zip_with, list_lookup_imap.
  by destruct (s !! i).
Qed.

(** An integer label is never missing: a labelled row has a missing
    value only if its feature columns have one. *)
Lemma has_na_mkLab f t : has_na (mkLab f t) = has_na f.
Proof. unfold has_na at 1, Labeled_has_na. simpl. apply orb_false_r. Qed.

(** The [dropna] after the label column removes no row. *)
Lemma add_target_keeps_all (df : list FeatRow) :
  Forall (fun r => has_na r = false) df ->
  add_target df = zip_with mkLab df (target_column ((fun r => Close (ind r)) <$> df)).
Proof.
  intros Hdf. unfold add_target. cbv zeta. apply dropna_all.
  apply Forall_lookup. intros i r Hr.
  apply lookup_zip_with_Some in Hr as (f & t & -> & Hf & _).
  rewrite has_na_mkLab. by eapply Forall_lookup_1 in Hdf.
Qed.

Lemma feat_add_target (df : list FeatRow) :
  Forall (fun r => has_na r = false) df -> feat <$> add_target df = df.
Proof.
  intros Hdf. rewrite add_target_keeps_all by done.
  apply fmap_zip_with_l; [done|].
  by rewrite length_target_column, length_fmap.
Qed.

Lemma Target_add_target (df : list FeatRow) :
  Forall (fun r => has_na r = false) df ->
  Target <$> add_target df = target_column ((fun r => Close (ind r)) <$> df).
Proof.
  intros Hdf. rewrite add_target_keeps_all by done.
  apply fmap_zip_with_r; [done|].
  by rewrite length_target_column, length_fmap.
Qed.

(** A finite sentiment column does not change which rows [dropna] keeps. *)
Lemma dropna_with_sentiment (rows : list IndRow) (sentiment : list fval) :
  length sentiment = length rows ->
  Forall (fun x => isna x = false) sentiment ->
  ind <$> dropna (zip_with mkFeat rows sentiment) = dropna rows.
Proof.
  revert sentiment. unfold dropna.
  induction rows as [|r rows IH]; intros [|x sentiment] Hlen Hfin;
    simplify_eq/=; [done|].
  apply Forall_cons in Hfin as [Hx Hfin].
  assert (E : has_na (mkFeat r x) = has_na r).
  { unfold has_na at 1, FeatRow_has_na. simpl.
    unfold has_na at 2, fval_has_na. rewrite Hx. apply orb_false_r. }
  rewrite !filter_cons, <- (IH sentiment) by done. rewrite E.
  by destruct (decide (has_na r = false)).
Qed.

Lemma base_features_ind choice compound data :
  ind <$> base_features choice compound data = dropna (indicator_rows data).
Proof.
  unfold base_features. cbv zeta. apply dropna_with_sentiment.
  - by rewrite length_fmap, length_imap, length_fmap, length_indicator_rows.
  - apply Forall_fmap, Forall_forall. by intros h _.
Qed.

Lemma enhanced_features_ind avg data :
  ind <$> enhanced_features avg data = dropna (indicator_rows data).
Proof.
  unfold enhanced_features. cbv zeta.
  rewrite <- list_fmap_compose. apply list_fmap_id.
Qed.

Lemma base_features_no_na choice compound data :
  Forall (fun r => has_na r = false) (base_features choice compound data).
Proof. apply dropna_no_na. Qed.

Lemma enhanced_features_no_na avg data :
  Forall (fun r => has_na r = false) (enhanced_features avg data).
Proof.
  unfold enhanced_features. cbv zeta. apply Forall_fmap.
  eapply Forall_impl; [apply dropna_no_na|]. intros r Hr. simpl.
  unfold has_na, FeatRow_has_na. simpl. rewrite Hr. done.
Qed.

(** The columns of a feature table: the kept rows, and the label computed
    from their close column. *)
Lemma table_columns data T :
  is_feature_table data T ->
  (fun r => ind (feat r)) <$> T = kept_rows data /\
  Target <$> T = target_column (Close <$> kept_rows data).
Proof.
  unfold kept_rows.
  intros [choice compound|avg]; unfold base_table, enhanced_table.
  - pose proof (base_features_no_na choice compound data) as Hna.
    rewrite Target_add_target by done.
    change (fun r => ind (feat r)) with (ind ∘ feat).
    rewrite (list_fmap_compose feat ind), feat_add_target by done.
    change (fun r => Close (ind r)) with (Close ∘ ind).
    by rewrite (list_fmap_compose ind Close), base_features_ind.
  - pose proof (enhanced_features_no_na avg data) as Hna.
    rewrite Target_add_target by done.
    change (fun r => ind (feat r)) with (ind ∘ feat).
    rewrite (list_fmap_compose feat ind), feat_add_target by done.
    change (fun r => Close (ind r)) with (Close ∘ ind).
    by rewrite (list_fmap_compose ind Close), enhanced_features_ind.
Qed.

Lemma table_length data T :
  is_feature_table data T -> length T = length (kept_rows data).
Proof.
  intros HT. destruct (table_columns data T HT) as [<- _].
  by rewrite length_fmap.
Qed.

(** Every kept row is an indicator row of some day, with a finite close. *)
Lemma kept_row_inv data r :
  r ∈ kept_rows data ->
  exists i q, data !! i = Some q /\ r = indicator_row data i q /\ has_na r = false.
Proof.
  unfold kept_rows, dropna. rewrite list_elem_of_filter, list_elem_of_lookup.
  intros [Hna [i Hi]]. rewrite lookup_indicator_rows in Hi.
  destruct (data !! i) as [q|] eqn:Hq; simplify_eq/=. by exists i, q.
Qed.

Lemma kept_rows_sublist data : kept_rows data `sublist_of` indicator_rows data.
Proof. apply sublist_filter. Qed.

Lemma Close_indicator_rows data :
  Close <$> indicator_rows data = Fin <$> (qClose <$> data).
Proof.
  apply list_eq. intros i.
  rewrite !list_lookup_fmap, lookup_indicator_rows. by destruct (data !! i).
Qed.

Lemma Date_indicator_rows data : Date <$> indicator_rows data = qDate <$> data.
Proof.
  apply list_eq. intros i.
  rewrite !list_lookup_fmap, lookup_indicator_rows. by destruct (data !! i).
Qed.

(** ** Order is kept by [dropna] *)

Lemma StronglySorted_sublist {A} (R : relation A) (l1 l2 : list A) :
  l1 `sublist_of` l2 -> StronglySorted R l2 -> StronglySorted R l1.
Proof.
  induction 1 as [|x l1 l2 Hsub IH|x l1 l2 Hsub IH]; intros Hs.
  - constructor.
  - apply StronglySorted_inv in Hs as [Hs Hx]. constructor; [by apply IH|].
    apply Forall_forall. intros y Hy.
    eapply Forall_forall in Hx; [done|]. by eapply elem_of_sublist.
  - apply StronglySorted_inv in Hs as [Hs _]. by apply IH.
Qed.

Lemma StronglySorted_lookup {A} (R : relation A) (l : list A) i j a b :
  StronglySorted R l -> (i < j)%nat ->
  l !! i = Some a -> l !! j = Some b -> R a b.
Proof.
  intros Hs. revert i j. induction Hs as [|x l Hs IH Hx]; intros i j Hij Hi Hj.
  - by rewrite lookup_nil in Hi.
  - destruct j as [|j]; [lia|]. destruct i as [|i]; simplify_eq/=.
    + eapply Forall_forall in Hx; [done|]. by eapply list_elem_of_lookup_2.
    + apply (IH i j); [lia|done..].
Qed.

(** The close column of the kept rows, as cells, in increasing order when
    the input closes are. *)
Lemma kept_closes_sorted data :
  StronglySorted Qclt (qClose <$> data) ->
  StronglySorted (fun x y => fgt y x = true) (Close <$> kept_rows data).
Proof.
  intros Hs. apply (StronglySorted_sublist _ _ (Close <$> indicator_rows data)).
  - apply fmap_sublist, kept_rows_sublist.
  - rewrite Close_indicator_rows.
    eapply StronglySorted_fmap; [|done].
    intros x y Hxy. simpl. by apply Qcltb_true.
Qed.

Lemma kept_dates_sorted data :
  StronglySorted Z.lt (qDate <$> data) ->
  StronglySorted Z.lt (Date <$> kept_rows data).
Proof.
  intros Hs. apply (StronglySorted_sublist _ _ (Date <$> indicator_rows data)).
  - apply fmap_sublist, kept_rows_sublist.
  - by rewrite Date_indicator_rows.
Qed.

(** ** The split sizes *)

Lemma n_test_of_Z n : Z.of_nat (n_test_of n) = ((Z.of_nat n + 4) / 5)%Z.
Proof.
  unfold n_test_of, test_size, Qceiling, Qfloor. simpl.
  change (Z.pos (10 * 1)) with 10%Z.
  pose proof (Zle_0_nat n).
  rewrite Z2Nat.id; Z.div_mod_to_equations; lia.
Qed.

(** [n_test] is 20% of the rows, rounded up. *)
Lemma n_test_of_bounds n : (n <= 5 * n_test_of n < n + 5)%nat.
Proof.
  pose proof (n_test_of_Z n) as E.
  assert (Z.of_nat n <= 5 * Z.of_nat (n_test_of n) < Z.of_nat n + 5)%Z; [|lia].
  rewrite E. Z.div_mod_to_equations. lia.
Qed.

Lemma train_test_split_Some {A B} (X : list A) (y : list B) :
  length y = length X -> (2 <= length X)%nat ->
  let n_train := (length X - n_test_of (length X))%nat in
  train_test_split X y
  = Some (take n_train X, drop n_train X, take n_train y, drop n_train y) /\
  (0 < n_train < length X)%nat.
Proof.
  intros Hy Hn n_train. pose proof (n_test_of_bounds (length X)) as Hb.
  unfold train_test_split. cbv zeta.
  rewrite bool_decide_eq_true_2 by done.
  rewrite bool_decide_eq_false_2 by lia. fold n_train.
  split; [|lia].
  rewrite (take_ge (drop n_train X)), (take_ge (drop n_train y));
    [done|rewrite length_drop; lia..].
Qed.

(** A frame with no row or one row cannot be split: the training part
    would be empty and the call raises. *)
Lemma train_test_split_None {A B} (X : list A) (y : list B) :
  (length X <= 1)%nat -> train_test_split X y = None.
Proof.
  intros Hn. pose proof (n_test_of_bounds (length X)) as Hb.
  unfold train_test_split. cbv zeta.
  case_bool_decide; [|done]. by rewrite bool_decide_eq_true_2 by lia.
Qed.

Lemma train_test_split_inv {A B} (X : list A) (y : list B) Xtr Xte ytr yte :
  train_test_split X y = Some (Xtr, Xte, ytr, yte) ->
  let n_train := (length X - n_test_of (length X))%nat in
  length y = length X /\ (2 <= length X)%nat /\
  Xtr = take n_train X /\ Xte = drop n_train X /\
  ytr = take n_train y /\ yte = drop n_train y.
Proof.
  intros Hs n_train.
  assert (Hy : length y = length X).
  { unfold train_test_split in Hs. by case_bool_decide. }
  destruct (decide (length X <= 1)%nat) as [Hn|Hn].
  { by rewrite train_test_split_None in Hs. }
  destruct (train_test_split_Some X y Hy) as [E _]; [lia|].
  rewrite E in Hs. simplify_eq. split_and!; (done || lia).
Qed.

(** ** Rows of a feature table *)

Lemma table_row_kept data T i r :
  is_feature_table data T -> T !! i = Some r ->
  kept_rows data !! i = Some (ind (feat r)).
Proof.
  intros HT Hr. destruct (table_columns data T HT) as [<- _].
  by rewrite list_lookup_fmap, Hr.
Qed.

Lemma table_row_close data T i r :
  is_feature_table data T -> T !! i = Some r ->
  exists c, lClose r = Fin c.
Proof.
  intros HT Hr. pose proof (table_row_kept _ _ _ _ HT Hr) as Hk.
  apply list_elem_of_lookup_2, kept_row_inv in Hk as (j & q & _ & E & _).
  exists (qClose q). unfold lClose. by rewrite E.
Qed.

(** The label of row [i], from the close of row [i] and of the row after
    it in the table ([NaN] stands for the missing row after the last). *)
Lemma table_row_label data T i r :
  is_feature_table data T -> T !! i = Some r ->
  Target r = if fgt (default NaN (lClose <$> T !! S i)) (lClose r) then 1%Z else 0%Z.
Proof.
  intros HT Hr. destruct (table_columns data T HT) as [Hk Ht].
  assert (E : (Target <$> T) !! i = Some (Target r))
    by (by rewrite list_lookup_fmap, Hr).
  rewrite Ht, lookup_target_column, <- Hk in E.
  rewrite <- !list_fmap_compose, !list_lookup_fmap, Hr in E.
  simpl in E. by simplify_eq.
Qed.

(** ** When the table is empty *)

Lemma kept_rows_nil_iff data :
  kept_rows data = [] <->
  forall i, (49 <= i < length data)%nat ->
            ~ window_moves (qClose <$> data) default_period i.
Proof.
  unfold kept_rows. rewrite dropna_nil_iff, Forall_lookup. split.
  - intros H i [Hi1 Hi2].
    destruct (lookup_lt_is_Some_2 data i Hi2) as [q Hq].
    specialize (H i (indicator_row data i q)).
    rewrite lookup_indicator_rows, Hq in H. specialize (H eq_refl).
    apply has_na_indicator_row in H as [?|?]; [lia|done].
  - intros H i r Hr. rewrite lookup_indicator_rows in Hr.
    destruct (data !! i) as [q|] eqn:Hq; simplify_eq/=.
    apply has_na_indicator_row.
    destruct (decide (i < 49)%nat); [by left|right].
    apply H. apply lookup_lt_Some in Hq. lia.
Qed.

Lemma table_no_na data T :
  is_feature_table data T -> Forall (fun r => has_na r = false) T.
Proof. intros [choice compound|avg]; apply dropna_no_na. Qed.

Lemma has_na_false_columns (r : Labeled) :
  has_na r = false ->
  isna (lClose r) = false /\ isna (MA20 (ind (feat r))) = false /\
  isna (MA50 (ind (feat r))) = false /\ isna (RSI (ind (feat r))) = false /\
  isna (Sentiment (feat r)) = false.
Proof.
  unfold has_na, Labeled_has_na, has_na, FeatRow_has_na, has_na, IndRow_has_na.
  unfold has_na, fval_has_na, Z_has_na, lClose.
  rewrite !orb_false_iff. tauto.
Qed.

Lemma table_nil_of_kept_nil data T :
  is_feature_table data T -> kept_rows data = [] -> T = [].
Proof.
  intros HT E. apply length_zero_iff_nil.
  by rewrite (table_length _ _ HT), E.
Qed.

(** ** The RSI column in float64 *)









(** The rows of [roll_mean] are the states of the loop. *)

Lemma f64_length_roll_rows values window st rows :
  length (Float64.roll_rows values window st rows) = length rows.
Proof.
  revert st. induction rows as [|i rows IH]; intros st; simpl; [done|by rewrite IH].
Qed.

Lemma f64_length_rolling_mean window s :
  length (Float64.rolling_mean window s) = length s.
Proof.
  unfold Float64.rolling_mean, Float64.roll_mean, Float64.prep_values.
  by rewrite length_fmap, f64_length_roll_rows, length_seq, length_fmap.
Qed.





(** The observations counted by the state: those of the window that are
    not NaN. *)












(** The running update of the state, row by row. *)



(** * The claims *)

(** C1. In the feature table of either notebook every label is 0 or 1,
    and for every row that has a next row the label is 1 exactly when
    the close of the next row exceeds the close of the row itself. *)
Theorem target_binary_next_close data T i r :
  is_feature_table data T -> T !! i = Some r ->
  (Target r = 0 \/ Target r = 1)%Z /\
  forall r', T !! S i = Some r' ->
    exists c c', lClose r = Fin c /\ lClose r' = Fin c' /\
                 (Target r = 1%Z <-> c < c').
Proof.
  intros HT Hr. pose proof (table_row_label _ _ _ _ HT Hr) as Hl. split.
  - rewrite Hl. destruct (fgt _ _); auto.
  - intros r' Hr'.
    destruct (table_row_close _ _ _ _ HT Hr) as [c Hc].
    destruct (table_row_close _ _ _ _ HT Hr') as [c' Hc'].
    exists c, c'. split_and!; [done..|].
    rewrite Hl, Hr', Hc. simpl. rewrite Hc'. simpl.
    rewrite <- Qcltb_true. by destruct (Qcltb c c').
Qed.

Lemma target_binary_next_close_witness :
  let T := enhanced_table 0 rising_quotes in
  let r := T !!! 0%nat in
  (Target r = 0 \/ Target r = 1)%Z /\
  forall r', T !! 1%nat = Some r' ->
    exists c c', lClose r = Fin c /\ lClose r' = Fin c' /\
                 (Target r = 1%Z <-> c < c').
Proof.
  intros T r. apply (target_binary_next_close rising_quotes T 0 r).
  - apply ft_enhanced.
  - apply list_lookup_lookup_total_lt. vm_compute. lia.
Defined.

(** C2 (what the code does at the failing input).  On fifty-two days of
    rising prices the table of either notebook keeps the row of the last
    trading day, day 51, and gives it label 0: the [dropna] after the
    label column removes nothing. *)
Theorem last_day_row_is_kept choice compound avg :
  lDate <$> base_table choice compound rising_quotes = [49; 50; 51]%Z /\
  Target <$> base_table choice compound rising_quotes = [1; 1; 0]%Z /\
  lDate <$> enhanced_table avg rising_quotes = [49; 50; 51]%Z /\
  Target <$> enhanced_table avg rising_quotes = [1; 1; 0]%Z /\
  last (qDate <$> rising_quotes) = Some 51%Z.
Proof.
  destruct (table_columns _ _ (ft_base rising_quotes choice compound)) as [Hb1 Hb2].
  destruct (table_columns _ _ (ft_enhanced rising_quotes avg)) as [He1 He2].
  assert (Hd : Date <$> kept_rows rising_quotes = [49; 50; 51]%Z)
    by (vm_compute; reflexivity).
  assert (Ht : target_column (Close <$> kept_rows rising_quotes) = [1; 1; 0]%Z)
    by (vm_compute; reflexivity).
  unfold lDate.
  change (fun r => Date (ind (feat r))) with (Date ∘ (fun r => ind (feat r))).
  rewrite !(list_fmap_compose (fun r => ind (feat r)) Date), Hb1, Hb2, He1, He2.
  split_and!; (done || (vm_compute; reflexivity)).
Qed.




(** C4. When the split of a feature table succeeds (it does as soon as the
    table has two rows), the training part is the first rows of the table
    and the test part the remaining ones, in table order; the test part
    holds 20% of the rows rounded up; and, the observations being in
    strictly increasing date order, every date of the test part is later
    than every date of the training part. *)
Theorem split_is_chronological data T :
  is_feature_table data T ->
  StronglySorted Z.lt (qDate <$> data) ->
  ((2 <= length T)%nat -> is_Some (split_table T)) /\
  forall Xtr Xte ytr yte,
    split_table T = Some (Xtr, Xte, ytr, yte) ->
    let n_train := length Xtr in
    Xtr = features <$> stock_data_train T n_train /\
    Xte = features <$> stock_data_test T n_train /\
    ytr = Target <$> stock_data_train T n_train /\
    yte = Target <$> stock_data_test T n_train /\
    (n_train + length Xte = length T)%nat /\
    (length T <= 5 * length Xte < length T + 5)%nat /\
    forall r r', r ∈ stock_data_train T n_train ->
                 r' ∈ stock_data_test T n_train ->
                 (lDate r < lDate r')%Z.
Proof.
  intros HT Hs. unfold split_table. cbv zeta. split.
  - intros Hn.
    destruct (train_test_split_Some (features <$> T) (Target <$> T)) as [E _].
    + by rewrite !length_fmap.
    + by rewrite length_fmap.
    + by rewrite E.
  - intros Xtr Xte ytr yte Hsplit.
    apply train_test_split_inv in Hsplit as (_ & Hn & -> & -> & -> & ->).
    rewrite length_fmap in Hn.
    pose proof (n_test_of_bounds (length T)) as Hb.
    rewrite !length_take, !length_drop, !length_fmap.
    replace (_ `min` length T)%nat with (length T - n_test_of (length T))%nat by lia.
    unfold stock_data_train, stock_data_test.
    rewrite !fmap_take, !fmap_drop.
    split_and!; [done|done|done|done|lia|lia|lia|].
    intros r r' Hr Hr'.
    apply elem_of_take in Hr as (i & Hi & Hlt).
    apply list_elem_of_lookup in Hr' as [j Hj]. rewrite lookup_drop in Hj.
    pose proof (kept_dates_sorted data Hs) as Hk.
    apply (StronglySorted_lookup _ _ i (length T - n_test_of (length T) + j)
             (lDate r) (lDate r') Hk); [lia|..].
    + by rewrite list_lookup_fmap, (table_row_kept _ _ _ _ HT Hi).
    + by rewrite list_lookup_fmap, (table_row_kept _ _ _ _ HT Hj).
Qed.

Lemma split_is_chronological_witness :
  let T := enhanced_table 0 fifty_five_quotes in
  ((2 <= length T)%nat -> is_Some (split_table T)) /\
  forall Xtr Xte ytr yte,
    split_table T = Some (Xtr, Xte, ytr, yte) ->
    let n_train := length Xtr in
    Xtr = features <$> stock_data_train T n_train /\
    Xte = features <$> stock_data_test T n_train /\
    ytr = Target <$> stock_data_train T n_train /\
    yte = Target <$> stock_data_test T n_train /\
    (n_train + length Xte = length T)%nat /\
    (length T <= 5 * length Xte < length T + 5)%nat /\
    forall r r', r ∈ stock_data_train T n_train ->
                 r' ∈ stock_data_test T n_train ->
                 (lDate r < lDate r')%Z.
Proof.
  apply (split_is_chronological fifty_five_quotes).
  - apply ft_enhanced.
  - apply (bool_decide_unpack _). vm_compute. exact I.
Defined.

(** The split of the six-row table above: four rows to train on, two to
    test on. *)
Example split_six_rows :
  let T := enhanced_table 0 fifty_five_quotes in
  exists Xtr Xte ytr yte,
    split_table T = Some (Xtr, Xte, ytr, yte) /\
    length Xtr = 4%nat /\ length Xte = 2%nat /\
    lDate <$> stock_data_train T 4 = [49; 50; 51; 52]%Z /\
    lDate <$> stock_data_test T 4 = [53; 54]%Z.
Proof.
  intros T.
  destruct (train_test_split_Some (features <$> T) (Target <$> T)) as [E _];
    [vm_compute; reflexivity|vm_compute; lia|].
  do 4 eexists. split; [exact E|].
  split_and!; vm_compute; reflexivity.
Qed.




(** On the sixteen closes of the worked example below the column and
    the reference agree to the last bit: the RSI of row 15 is the
    float64 nearest to 650/7, 92.85714285714286. *)
Example rsi_float_zigzag :
  Float64.compute_RSI
    (Float64.of_Z <$> [1;2;3;4;5;6;7;8;9;10;11;12;13;14;15;14]%Z)
    default_period !! 15%nat
  = Some (SpecFloat.S754_finite false 6534240530783086 (-46)) /\
  Float64.rsi_reference
    (Float64.of_Z <$> [1;2;3;4;5;6;7;8;9;10;11;12;13;14;15;14]%Z)
    default_period 15
  = SpecFloat.S754_finite false 6534240530783086 (-46).
Proof. split; vm_compute; reflexivity. Qed.

(** Two special rows in float64: on fifteen equal closes the RSI of row
    14 is NaN, on fifteen rising closes it is 100. *)
Example rsi_float_flat_and_rising :
  Float64.compute_RSI (Float64.of_Z <$> replicate 15 100%Z) default_period !! 14%nat
  = Some Float64.nan /\
  Float64.compute_RSI (Float64.of_Z <$> seqZ 1 15) default_period !! 14%nat
  = Some (Float64.of_Z 100).
Proof. split; vm_compute; reflexivity. Qed.

(** The worked example in exact arithmetic: thirteen gains of 1 and one
    loss of 1 in the window give an RSI of 650/7. *)
Example rsi_reference_zigzag :
  rsi_reference zigzag_closes default_period 15 = Fin (Qc_of_Z 650 / Qc_of_Z 7).
Proof. apply (bool_decide_unpack _). vm_compute. exact I. Qed.

(** C6, counterexample.  Fifty days at one price: the sequence has length
    50 and the feature table of either notebook is empty. *)
Lemma flat_prices_empty_table :
  length flat_quotes = 50%nat /\
  enhanced_table 0 flat_quotes = [] /\
  base_table (fun _ => 0%nat) (fun _ => 0) flat_quotes = [].
Proof. split_and!; vm_compute; reflexivity. Qed.

(** C6, as the code has it.  Whatever the price sequence, no column of
    the feature table holds an undefined value.  The table can be empty;
    a table that is not has been built from at least fifty
    observations. *)
Theorem table_has_no_undefined_value data T :
  is_feature_table data T ->
  Forall (fun r =>
            isna (lClose r) = false /\ isna (MA20 (ind (feat r))) = false /\
            isna (MA50 (ind (feat r))) = false /\
            isna (RSI (ind (feat r))) = false /\
            isna (Sentiment (feat r)) = false) T /\
  (T <> [] -> (50 <= length data)%nat).
Proof.
  intros HT. split.
  - eapply Forall_impl; [by apply (table_no_na data)|]. apply has_na_false_columns.
  - intros Hne. destruct (decide (50 <= length data)%nat) as [|Hn]; [done|].
    destruct Hne. apply (table_nil_of_kept_nil data); [done|].
    apply kept_rows_nil_iff. intros i Hi. lia.
Qed.

Lemma table_has_no_undefined_value_witness :
  let T := enhanced_table 0 rising_quotes in
  Forall (fun r =>
            isna (lClose r) = false /\ isna (MA20 (ind (feat r))) = false /\
            isna (MA50 (ind (feat r))) = false /\
            isna (RSI (ind (feat r))) = false /\
            isna (Sentiment (feat r)) = false) T /\
  (T <> [] -> (50 <= length rising_quotes)%nat).
Proof.
  apply (table_has_no_undefined_value rising_quotes). apply ft_enhanced.
Defined.

(** C7. The retrieval returns the titles of the articles on status 200
    and the empty list on every other status; an empty list is replaced
    by the demonstration headlines, so the list handed to the sentiment
    step is never empty. *)
Theorem headlines_fetch_and_fallback requests_get sentiment_pipeline
    query from_date to_date yesterday today api_key data :
  let response := requests_get (news_url query from_date to_date api_key) in
  let fetched := (fetch_live_headlines requests_get "AAPL" yesterday today api_key).1 in
  let headlines := (live_headlines requests_get yesterday today api_key).1 in
  (status_code response = 200%Z ->
   (fetch_live_headlines requests_get query from_date to_date api_key).1
   = title <$> articles response) /\
  (status_code response <> 200%Z ->
   (fetch_live_headlines requests_get query from_date to_date api_key).1 = []) /\
  (fetched = [] -> headlines = demo_headlines) /\
  (fetched <> [] -> headlines = fetched) /\
  headlines <> [] /\
  enhanced_pipeline requests_get sentiment_pipeline yesterday today api_key data
  = enhanced_table (average_sentiment sentiment_pipeline headlines).1 data.
Proof.
  intros response fetched headlines. split_and!.
  - intros H200. unfold fetch_live_headlines. cbv zeta. fold response.
    by rewrite bool_decide_eq_true_2.
  - intros H200. unfold fetch_live_headlines. cbv zeta. fold response.
    by rewrite bool_decide_eq_false_2.
  - subst fetched headlines. unfold live_headlines.
    destruct (fetch_live_headlines _ _ _ _ _) as [hs out]. simpl. by intros ->.
  - subst fetched headlines. unfold live_headlines.
    destruct (fetch_live_headlines _ _ _ _ _) as [[|h hs] out]; simpl; done.
  - subst headlines. unfold live_headlines.
    destruct (fetch_live_headlines _ _ _ _ _) as [[|h hs] out]; simpl; done.
  - reflexivity.
Qed.

Lemma headlines_fetch_and_fallback_witness :
  (fetch_live_headlines (fun _ => ok_response) "AAPL" "2026-11-01" "2026-11-02" "KEY").1
    = ["Apple unveils new chip"; "Markets close higher"]%string /\
  (fetch_live_headlines (fun _ => error_response) "AAPL" "2026-11-01" "2026-11-02" "KEY").1
    = [] /\
  (live_headlines (fun _ => error_response) "2026-11-01" "2026-11-02" "KEY").1
    = demo_headlines /\
  (live_headlines (fun _ => ok_response) "2026-11-01" "2026-11-02" "KEY").1
    = ["Apple unveils new chip"; "Markets close higher"]%string.
Proof.
  pose proof (headlines_fetch_and_fallback (fun _ => ok_response)
    (fun _ => ("POSITIVE"%string, 1)) "AAPL" "2026-11-01" "2026-11-02"
    "2026-11-01" "2026-11-02" "KEY" []) as Hok.
  pose proof (headlines_fetch_and_fallback (fun _ => error_response)
    (fun _ => ("POSITIVE"%string, 1)) "AAPL" "2026-11-01" "2026-11-02"
    "2026-11-01" "2026-11-02" "KEY" []) as Herr.
  cbv zeta in Hok, Herr.
  destruct Hok as (Hok1 & _ & _ & Hok4 & _).
  destruct Herr as (_ & Herr2 & Herr3 & _).
  split_and!.
  - apply Hok1. reflexivity.
  - apply Herr2. vm_compute. discriminate.
  - apply Herr3. reflexivity.
  - rewrite Hok4; [reflexivity|]. vm_compute. discriminate.
Defined.

(** C8. The label column does not depend on the sentiment: runs on the
    same price observations give the same label column whatever the
    headlines drawn, the scores, the news response or the average
    sentiment. *)
Theorem label_column_ignores_sentiment data
    choice1 compound1 choice2 compound2 avg1 avg2
    requests_get1 pipeline1 requests_get2 pipeline2
    yesterday1 today1 key1 yesterday2 today2 key2 :
  Target <$> base_table choice1 compound1 data
    = Target <$> base_table choice2 compound2 data /\
  Target <$> enhanced_table avg1 data = Target <$> enhanced_table avg2 data /\
  Target <$> enhanced_pipeline requests_get1 pipeline1 yesterday1 today1 key1 data
    = Target <$> enhanced_pipeline requests_get2 pipeline2 yesterday2 today2 key2 data /\
  Target <$> base_table choice1 compound1 data
    = target_column (Close <$> kept_rows data).
Proof.
  unfold enhanced_pipeline. cbv zeta.
  pose proof (fun c s => proj2 (table_columns data _ (ft_base data c s))) as Hb.
  pose proof (fun a => proj2 (table_columns data _ (ft_enhanced data a))) as He.
  by rewrite !Hb, !He.
Qed.

(** C9. When the close prices are strictly increasing, every row of the
    feature table except the last one has label 1. *)
Theorem rising_closes_label_one data T i r :
  is_feature_table data T ->
  StronglySorted Qclt (qClose <$> data) ->
  T !! i = Some r -> (S i < length T)%nat ->
  Target r = 1%Z.
Proof.
  intros HT Hs Hr Hi.
  destruct (lookup_lt_is_Some_2 T (S i) Hi) as [r' Hr'].
  rewrite (table_row_label _ _ _ _ HT Hr), Hr'. simpl.
  pose proof (kept_closes_sorted data Hs) as Hk.
  rewrite (StronglySorted_lookup _ _ i (S i) (lClose r) (lClose r') Hk); [done|lia|..].
  - by rewrite list_lookup_fmap, (table_row_kept _ _ _ _ HT Hr).
  - by rewrite list_lookup_fmap, (table_row_kept _ _ _ _ HT Hr').
Qed.

Lemma rising_closes_label_one_witness :
  Target (enhanced_table 0 rising_quotes !!! 1%nat) = 1%Z.
Proof.
  apply (rising_closes_label_one rising_quotes (enhanced_table 0 rising_quotes) 1).
  - apply ft_enhanced.
  - apply (bool_decide_unpack _). vm_compute. exact I.
  - apply list_lookup_lookup_total_lt. vm_compute. lia.
  - vm_compute. lia.
Defined.

(** C10, counterexample.  Fifty days of rising prices leave a table of
    one row; it is not empty, and the split raises instead of returning
    the two parts. *)
Lemma one_row_table_is_not_split :
  length (enhanced_table 0 fifty_quotes) = 1%nat /\
  enhanced_table 0 fifty_quotes <> [] /\
  split_table (enhanced_table 0 fifty_quotes) = None.
Proof.
  split_and!.
  - vm_compute. reflexivity.
  - intros E. apply (f_equal length) in E. vm_compute in E. discriminate E.
  - vm_compute. reflexivity.
Qed.

(** C10, as the code has it.  Every table of at least two rows is split,
    and the training part followed by the test part is the table again,
    for the feature columns and for the labels; neither part is empty. *)
Theorem split_is_exact_partition (T : list Labeled) :
  (2 <= length T)%nat ->
  exists Xtr Xte ytr yte,
    split_table T = Some (Xtr, Xte, ytr, yte) /\
    Xtr ++ Xte = features <$> T /\
    ytr ++ yte = Target <$> T /\
    length Xtr = length ytr /\ length Xte = length yte /\
    Xtr <> [] /\ Xte <> [].
Proof.
  intros Hn. unfold split_table. cbv zeta.
  destruct (train_test_split_Some (features <$> T) (Target <$> T)) as [E Hk].
  { by rewrite !length_fmap. }
  { by rewrite length_fmap. }
  rewrite length_fmap in E, Hk.
  set (n_train := (length T - n_test_of (length T))%nat) in *.
  do 4 eexists. split; [exact E|].
  rewrite !take_drop. split_and!; [done..| | | |].
  - rewrite !length_take, !length_fmap. done.
  - rewrite !length_drop, !length_fmap. done.
  - intros E'. apply (f_equal length) in E'.
    rewrite length_take, length_fmap in E'. simpl in E'. lia.
  - intros E'. apply (f_equal length) in E'.
    rewrite length_drop, length_fmap in E'. simpl in E'. lia.
Qed.

Lemma split_is_exact_partition_witness :
  let T := enhanced_table 0 fifty_five_quotes in
  exists Xtr Xte ytr yte,
    split_table T = Some (Xtr, Xte, ytr, yte) /\
    Xtr ++ Xte = features <$> T /\
    ytr ++ yte = Target <$> T /\
    length Xtr = length ytr /\ length Xte = length yte /\
    Xtr <> [] /\ Xte <> [].
Proof.
  apply (split_is_exact_partition (enhanced_table 0 fifty_five_quotes)).
  vm_compute. lia.
Defined.

(** * Further properties of the pipeline *)

(** ** [dropna] *)

(** X1. [dropna] keeps the rows in their order, dropping a second time
    changes nothing, and a frame is left as it is exactly when no row of
    it has a missing value. *)
Theorem dropna_idempotent_sublist {A} `{HasNa A} (df : list A) :
  dropna (dropna df) = dropna df /\
  dropna df `sublist_of` df /\
  (dropna df = df <-> Forall (fun r => has_na r = false) df).
Proof.
  split_and!.
  - apply dropna_all, dropna_no_na.
  - apply sublist_filter.
  - split; [|apply dropna_all].
    intros E. rewrite <- E. apply dropna_no_na.
Qed.

(** ** Warm-up of the indicators *)

(** X2. With fewer than fifty observations the fifty-day average is
    never defined: the feature table of either notebook is empty and the
    split raises. *)
Theorem short_history_empty_table data T :
  is_feature_table data T -> (length data < 50)%nat ->
  T = [] /\ split_table T = None.
Proof.
  intros HT Hn.
  assert (E : T = []).
  { apply (table_nil_of_kept_nil data); [done|].
    apply kept_rows_nil_iff. intros i Hi. lia. }
  split; [done|]. subst T. reflexivity.
Qed.

Lemma short_history_empty_table_witness :
  enhanced_table 0 (quotes_of_Z (seqZ 1 49)) = [] /\
  split_table (enhanced_table 0 (quotes_of_Z (seqZ 1 49))) = None.
Proof.
  apply (short_history_empty_table (quotes_of_Z (seqZ 1 49))).
  - apply ft_enhanced.
  - vm_compute. lia.
Defined.

(** X3. Every row of a feature table is the row of an observation at
    index 49 or later: it carries the date and the close of that
    observation. *)
Theorem table_row_origin data T r :
  is_feature_table data T -> r ∈ T ->
  exists i q,
    data !! i = Some q /\ (49 <= i)%nat /\
    lDate r = qDate q /\ lClose r = Fin (qClose q).
Proof.
  intros HT Hr. apply list_elem_of_lookup in Hr as [k Hr].
  pose proof (table_row_kept _ _ _ _ HT Hr) as Hk.
  apply list_elem_of_lookup_2, kept_row_inv in Hk as (i & q & Hq & E & Hna).
  assert (Hi : (49 <= i)%nat).
  { destruct (decide (49 <= i)%nat) as [|Hlt]; [done|].
    assert (Ht : has_na (ind (feat r)) = true); [|congruence].
    rewrite E. apply has_na_indicator_row. left. lia. }
  exists i, q. unfold lDate, lClose. rewrite E. done.
Qed.

Lemma table_row_origin_witness :
  let T := enhanced_table 0 rising_quotes in
  let r := T !!! 0%nat in
  exists i q,
    rising_quotes !! i = Some q /\ (49 <= i)%nat /\
    lDate r = qDate q /\ lClose r = Fin (qClose q).
Proof.
  intros T r. apply (table_row_origin rising_quotes T r).
  - apply ft_enhanced.
  - apply (list_elem_of_lookup_2 _ 0), list_lookup_lookup_total_lt.
    vm_compute. lia.
Defined.

(** X4. The 49 warm-up rows never reach the table: it has at most one
    row for each observation from the fiftieth on, and its dates are, in
    their order, dates of those observations. *)
Theorem warm_up_rows_are_dropped data T :
  is_feature_table data T ->
  (length T <= length data - 49)%nat /\
  lDate <$> T `sublist_of` drop 49 (qDate <$> data).
Proof.
  intros HT.
  assert (E : kept_rows data = dropna (drop 49 (indicator_rows data))).
  { unfold kept_rows.
    rewrite <- (take_drop 49 (indicator_rows data)) at 1.
    unfold dropna. rewrite filter_app.
    fold (dropna (take 49 (indicator_rows data))).
    fold (dropna (drop 49 (indicator_rows data))).
    rewrite (proj2 (dropna_nil_iff (take 49 (indicator_rows data)))); [done|].
    apply Forall_lookup. intros i r Hr.
    apply lookup_take_Some in Hr as [Hr Hi].
    rewrite lookup_indicator_rows in Hr.
    destruct (data !! i) as [q|] eqn:Hq; simplify_eq/=.
    apply has_na_indicator_row. by left. }
  assert (Hsub : lDate <$> T `sublist_of` drop 49 (qDate <$> data)).
  { destruct (table_columns _ _ HT) as [Hk _].
    unfold lDate.
    change (fun r => Date (ind (feat r))) with (Date ∘ (fun r => ind (feat r))).
    rewrite (list_fmap_compose (fun r => ind (feat r)) Date), Hk, E.
    rewrite <- Date_indicator_rows, <- fmap_drop.
    apply fmap_sublist, sublist_filter. }
  split; [|done].
  apply sublist_length in Hsub.
  by rewrite !length_fmap, length_drop, length_fmap in Hsub.
Qed.

Lemma warm_up_rows_are_dropped_witness :
  (length (enhanced_table 0 fifty_five_quotes) <= length fifty_five_quotes - 49)%nat /\
  lDate <$> enhanced_table 0 fifty_five_quotes
    `sublist_of` drop 49 (qDate <$> fifty_five_quotes).
Proof.
  apply (warm_up_rows_are_dropped fifty_five_quotes). apply ft_enhanced.
Defined.

(** ** The label column *)

(** X5. The last row of a feature table always carries label 0: the
    comparison with the missing next close is false, and the row stays
    in the table. *)
Theorem last_row_label_zero data T r :
  is_feature_table data T -> last T = Some r -> Target r = 0%Z.
Proof.
  intros HT Hlast. rewrite last_lookup in Hlast.
  rewrite (table_row_label _ _ _ _ HT Hlast).
  rewrite (lookup_ge_None_2 T (S (pred (length T)))) by lia.
  done.
Qed.

Lemma last_row_label_zero_witness :
  Target (enhanced_table 0 fifty_five_quotes !!! 5%nat) = 0%Z.
Proof.
  apply (last_row_label_zero fifty_five_quotes (enhanced_table 0 fifty_five_quotes)).
  - apply ft_enhanced.
  - rewrite last_lookup. apply list_lookup_lookup_total_lt. vm_compute. lia.
Defined.

(** X6. Both notebooks build the same table from the same observations,
    up to the sentiment column: the same days are kept, with the same
    close, moving averages, RSI and label.  In the enhanced notebook the
    sentiment column holds the one average score in every row. *)
Theorem notebooks_agree_up_to_sentiment data choice compound avg :
  (fun r => ind (feat r)) <$> base_table choice compound data
    = (fun r => ind (feat r)) <$> enhanced_table avg data /\
  Target <$> base_table choice compound data
    = Target <$> enhanced_table avg data /\
  length (base_table choice compound data) = length (enhanced_table avg data) /\
  Forall (fun r => Sentiment (feat r) = Fin avg) (enhanced_table avg data).
Proof.
  destruct (table_columns _ _ (ft_base data choice compound)) as [Hb1 Hb2].
  destruct (table_columns _ _ (ft_enhanced data avg)) as [He1 He2].
  split_and!.
  - by rewrite Hb1, He1.
  - by rewrite Hb2, He2.
  - by rewrite !(table_length data) by constructor.
  - assert (E : feat <$> enhanced_table avg data = enhanced_features avg data)
      by apply feat_add_target, enhanced_features_no_na.
    apply Forall_lookup. intros i r Hr.
    assert (Hf : (feat <$> enhanced_table avg data) !! i = Some (feat r))
      by (by rewrite list_lookup_fmap, Hr).
    rewrite E in Hf. unfold enhanced_features in Hf. cbv zeta in Hf.
    rewrite list_lookup_fmap in Hf.
    destruct (dropna (indicator_rows data) !! i) as [x|]; simplify_eq/=.
    by rewrite <- Hf.
Qed.

(** X7. In the base notebook the sentiment of every table row is the
    score of one of the five fixed headlines, whatever the draws. *)
Theorem base_sentiment_is_a_fake_headline_score choice compound data r :
  r ∈ base_table choice compound data ->
  exists h, h ∈ fake_headlines /\ Sentiment (feat r) = Fin (compound h).
Proof.
  intros Hr.
  assert (Hf : feat r ∈ base_features choice compound data).
  { rewrite <- (feat_add_target (base_features choice compound data))
      by apply base_features_no_na.
    by apply list_elem_of_fmap_2. }
  unfold base_features in Hf. cbv zeta in Hf.
  unfold dropna in Hf. apply list_elem_of_filter in Hf as [_ Hf].
  apply list_elem_of_lookup in Hf as [i Hf].
  apply lookup_zip_with_Some in Hf as (x & s & -> & _ & Hs).
  rewrite list_lookup_fmap, list_lookup_imap, list_lookup_fmap in Hs.
  destruct (data !! i) as [q|]; simplify_eq/=.
  eexists. split; [|reflexivity].
  unfold generate_fake_headlines.
  apply list_elem_of_lookup_total_2.
  apply Nat.mod_upper_bound. done.
Qed.

Lemma base_sentiment_is_a_fake_headline_score_witness :
  let T := base_table (fun k => k) (fun _ => 0) rising_quotes in
  exists h, h ∈ fake_headlines /\ Sentiment (feat (T !!! 0%nat)) = Fin 0.
Proof.
  intros T.
  apply (base_sentiment_is_a_fake_headline_score (fun k => k) (fun _ => 0) rising_quotes).
  apply (list_elem_of_lookup_2 _ 0), list_lookup_lookup_total_lt.
  vm_compute. lia.
Defined.

(** ** The splitter *)

(** X8. The split raises exactly when the columns differ in length or the
    frame has fewer than two rows; on a table, whose [X] and [y] always
    have one entry per row, exactly when it has fewer than two rows. *)
Theorem split_fails_iff {A B} (X : list A) (y : list B) (T : list Labeled) :
  (train_test_split X y = None <->
   length y <> length X \/ (length X <= 1)%nat) /\
  (split_table T = None <-> (length T <= 1)%nat).
Proof.
  assert (Hgen : forall (A' B' : Type) (X' : list A') (y' : list B'),
    train_test_split X' y' = None <->
    length y' <> length X' \/ (length X' <= 1)%nat).
  { intros A' B' X' y'. split.
    - intros Hnone.
      destruct (decide (length y' = length X')) as [Hy|Hy]; [|by left].
      right. destruct (decide (length X' <= 1)%nat) as [|Hn]; [done|].
      destruct (train_test_split_Some X' y' Hy) as [E _]; [lia|congruence].
    - intros [Hy|Hn]; [|by apply train_test_split_None].
      unfold train_test_split. by rewrite bool_decide_eq_false_2. }
  split; [apply Hgen|].
  unfold split_table. cbv zeta. rewrite Hgen, !length_fmap.
  split; [intros [?|?]; [done|lia]|by right].
Qed.

(** ** The indicator columns in float64 *)

(** X9. The RSI column is not confined to the range from 0 to 100.  On
    the closes of [dip_closes] the window of row 23 holds gains of 128
    and losses of 64 in all, and the reference RSI is 200/3; the running
    sum of the losses, from which the loss of row 5 (a fall from 2^60 to
    128) was removed at row 19, stands at -64: the mean loss of the
    column is negative and the RSI of the row is 200. *)
Theorem rsi_can_exceed_100 :
  rsi_reference (closes_of_Z dip_closes) default_period 23
  = Fin (Qc_of_Z 200 / Qc_of_Z 3) /\
  Float64.rsi_gain (Float64.of_Z <$> dip_closes) default_period !! 23%nat
  = Some (Float64.div (Float64.of_Z 128) (Float64.of_Z 14)) /\
  Float64.rsi_loss (Float64.of_Z <$> dip_closes) default_period !! 23%nat
  = Some (Float64.div (Float64.of_Z (-64)) (Float64.of_Z 14)) /\
  Float64.compute_RSI (Float64.of_Z <$> dip_closes) default_period !! 23%nat
  = Some (Float64.of_Z 200) /\
  Float64.compute_dummy_RSI (Float64.of_Z <$> dip_closes) default_period !! 23%nat
  = Some (Float64.of_Z 200).
Proof.
  split; [|split_and!; vm_compute; reflexivity].
  apply (bool_decide_unpack _). vm_compute. exact I.
Qed.

(** X15. A moving average can lie outside the range of the closes of
    its window.  On the closes of [step_closes] the twenty closes of the
    window of row 22 are 100 or 200 and their mean is 180; the column
    [MA20], whose running sum held the close of 2^62 up to row 21, is
    205.6 at row 22. *)
Theorem moving_average_can_leave_window :
  Forall (fun c => (100 <= c <= 200)%Z) (take 20 (drop 3 step_closes)) /\
  trailing_mean (fun j => closes_of_Z step_closes !!! j) 20 22 = Qc_of_Z 180 /\
  exists x,
    Float64.rolling_mean 20 (Float64.of_Z <$> step_closes) !! 22%nat = Some x /\
    x = SpecFloat.S754_finite false 7233906901463859 (-45) /\
    Float64.ltb (Float64.of_Z 205) x = true.
Proof.
  split_and!.
  - apply (bool_decide_unpack _). vm_compute. exact I.
  - apply (bool_decide_unpack _). vm_compute. exact I.
  - eexists. split_and!; [vm_compute; reflexivity|reflexivity|vm_compute; reflexivity].
Qed.

(** ** Means of bounded lists *)

Lemma Qc_of_nat_S n : Qc_of_Z (Z.of_nat (S n)) = 1 + Qc_of_Z (Z.of_nat n).
Proof.
  apply Qc_is_canon. cbn [this Qcplus Q2Qc Qc_of_Z].
  rewrite Qred_correct. unfold Qeq. simpl. lia.
Qed.

Lemma Qcsum_lower (l : list Qc) lo :
  Forall (fun x => lo <= x) l -> Qc_of_Z (Z.of_nat (length l)) * lo <= Qcsum l.
Proof.
  induction 1 as [|x l Hx _ IH]; unfold Qcsum in *; cbn [length foldr].
  - change (Qc_of_Z (Z.of_nat 0)) with (Qc_of_Z 0).
    rewrite Z2Qc_inj_0, Qcmult_0_l. apply Qcle_refl.
  - rewrite Qc_of_nat_S, Qcmult_plus_distr_l, Qcmult_1_l.
    by apply Qcplus_le_compat.
Qed.

Lemma Qcsum_upper (l : list Qc) hi :
  Forall (fun x => x <= hi) l -> Qcsum l <= Qc_of_Z (Z.of_nat (length l)) * hi.
Proof.
  induction 1 as [|x l Hx _ IH]; unfold Qcsum in *; cbn [length foldr].
  - change (Qc_of_Z (Z.of_nat 0)) with (Qc_of_Z 0).
    rewrite Z2Qc_inj_0, Qcmult_0_l. apply Qcle_refl.
  - rewrite Qc_of_nat_S, Qcmult_plus_distr_l, Qcmult_1_l.
    by apply Qcplus_le_compat.
Qed.

(** The mean of a non-empty list lies between any two bounds of its
    elements. *)
Lemma mean_between (l : list Qc) lo hi :
  (0 < length l)%nat ->
  Forall (fun x => lo <= x <= hi) l ->
  lo <= Qcsum l / Qc_of_Z (Z.of_nat (length l)) <= hi.
Proof.
  intros Hlen Hall. set (n := Qc_of_Z (Z.of_nat (length l))).
  assert (Hn : 0 < n) by (by apply Qc_of_nat_gt_0).
  assert (Hn0 : n <> 0) by (by apply Qc_of_nat_pos).
  assert (Hinv : 0 <= / n) by (by apply Qclt_le_weak, Qcinv_pos).
  split.
  - replace lo with (n * lo * / n) by (field; done).
    apply Qcmult_le_mono_nonneg_r; [done|]. apply Qcsum_lower.
    eapply Forall_impl; [exact Hall|]. by intros x [? _].
  - replace hi with (n * hi * / n) by (field; done).
    apply Qcmult_le_mono_nonneg_r; [done|]. apply Qcsum_upper.
    eapply Forall_impl; [exact Hall|]. by intros x [_ ?].
Qed.

(** ** Enhanced notebook: the average sentiment *)

Lemma np_mean_between (l : list Qc) lo hi :
  (0 < length l)%nat ->
  Forall (fun x => lo <= x <= hi) l ->
  lo <= np_mean l <= hi.
Proof. apply mean_between. Qed.

Lemma get_bert_sentiment_range sentiment_pipeline headline :
  0 <= (sentiment_pipeline headline).2 <= 1 ->
  - 1 <= get_bert_sentiment sentiment_pipeline headline <= 1.
Proof.
  intros [H0 H1]. unfold get_bert_sentiment. cbv zeta.
  assert (Hm : - 1 <= 0).
  { apply (Qcopp_le_compat 0 1), Qclt_le_weak, Qc_0_lt_1. }
  assert (H01 : (0 : Qc) <= 1) by apply Qclt_le_weak, Qc_0_lt_1.
  case_bool_decide.
  - split; [by eapply Qcle_trans|done].
  - split.
    + by apply Qcopp_le_compat.
    + eapply Qcle_trans; [|exact H01].
      replace 0 with (- 0) by ring. by apply Qcopp_le_compat.
Qed.

(** X16. When the transformer reports scores between 0 and 1, the signed
    score of a headline and the average over any headline list lie
    between -1 and 1, and so does the sentiment column of the enhanced
    table. *)
Theorem average_sentiment_in_range requests_get sentiment_pipeline
    headlines yesterday today api_key data :
  (forall h, 0 <= (sentiment_pipeline h).2 <= 1) ->
  - 1 <= (average_sentiment sentiment_pipeline headlines).1 <= 1 /\
  Forall (fun r => exists s, Sentiment (feat r) = Fin s /\ - 1 <= s <= 1)
    (enhanced_pipeline requests_get sentiment_pipeline yesterday today api_key data).
Proof.
  intros Hscore.
  assert (Havg : forall hs, - 1 <= (average_sentiment sentiment_pipeline hs).1 <= 1).
  { intros [|h hs]; unfold average_sentiment.
    - cbn [fst]. split.
      + apply (Qcopp_le_compat 0 1), Qclt_le_weak, Qc_0_lt_1.
      + apply Qclt_le_weak, Qc_0_lt_1.
    - cbv zeta. cbn [fst]. apply np_mean_between.
      + rewrite length_fmap. simpl. lia.
      + apply Forall_fmap, Forall_forall. intros h' _. simpl.
        apply get_bert_sentiment_range, Hscore. }
  split; [apply Havg|].
  unfold enhanced_pipeline. cbv zeta.
  pose proof (Havg (live_headlines requests_get yesterday today api_key).1) as Hr.
  remember ((average_sentiment sentiment_pipeline
               (live_headlines requests_get yesterday today api_key).1).1)
    as avg eqn:Eavg.
  clear Eavg Havg Hscore.
  assert (E : feat <$> enhanced_table avg data = enhanced_features avg data)
    by apply feat_add_target, enhanced_features_no_na.
  apply Forall_lookup. intros i r Hi.
  assert (Hf : (feat <$> enhanced_table avg data) !! i = Some (feat r))
    by (by rewrite list_lookup_fmap, Hi).
  rewrite E in Hf. unfold enhanced_features in Hf. cbv zeta in Hf.
  rewrite list_lookup_fmap in Hf.
  destruct (dropna (indicator_rows data) !! i) as [x|]; [|discriminate Hf].
  cbn [fmap option_fmap option_map] in Hf.
  exists avg. split; [|exact Hr].
  assert (Ef : mkFeat x (Fin avg) = feat r) by congruence.
  by rewrite <- Ef.
Qed.

Lemma average_sentiment_in_range_witness :
  - 1 <= (average_sentiment (fun _ => ("NEGATIVE"%string, 1)) demo_headlines).1 <= 1 /\
  Forall (fun r => exists s, Sentiment (feat r) = Fin s /\ - 1 <= s <= 1)
    (enhanced_pipeline (fun _ => error_response) (fun _ => ("NEGATIVE"%string, 1))
       "2026-11-01" "2026-11-02" "KEY" rising_quotes).
Proof.
  apply (average_sentiment_in_range (fun _ => error_response)
           (fun _ => ("NEGATIVE"%string, 1))).
  intros h. split; by vm_compute.
Defined.

(** X17. The sentiment cell never reports that no headlines are
    available: the list it gets from the headline cell is not empty, so
    the average is always taken; and when the retrieval gave nothing, it
    is the average over the two demonstration headlines. *)
Theorem sentiment_cell_always_averages requests_get sentiment_pipeline
    yesterday today api_key :
  let fetched := (fetch_live_headlines requests_get "AAPL" yesterday today api_key).1 in
  let headlines := (live_headlines requests_get yesterday today api_key).1 in
  let avg := np_mean (get_bert_sentiment sentiment_pipeline <$> headlines) in
  average_sentiment sentiment_pipeline headlines = (avg, [AverageScore avg]) /\
  (fetched = [] ->
   avg = np_mean (get_bert_sentiment sentiment_pipeline <$> demo_headlines)).
Proof.
  intros fetched headlines avg. subst fetched headlines avg.
  unfold live_headlines.
  destruct (fetch_live_headlines _ _ _ _ _) as [[|h hs] out]; cbn [fst].
  - split; [reflexivity|]. done.
  - split; [reflexivity|]. intros E. discriminate E.
Qed.

Lemma sentiment_cell_always_averages_witness :
  let pipe := fun _ : string => ("POSITIVE"%string, 1) in
  let headlines := (live_headlines (fun _ => error_response) "2026-11-01" "2026-11-02" "KEY").1 in
  let avg := np_mean (get_bert_sentiment pipe <$> headlines) in
  average_sentiment pipe headlines = (avg, [AverageScore avg]) /\
  avg = np_mean (get_bert_sentiment pipe <$> demo_headlines).
Proof.
  intros pipe headlines avg.
  destruct (sentiment_cell_always_averages (fun _ => error_response) pipe
              "2026-11-01" "2026-11-02" "KEY") as [H1 H2].
  split; [exact H1|]. apply H2. reflexivity.
Defined.

(** ** Base notebook: evaluation and plot *)

Lemma Qc_of_Z_le (a b : Z) : (a <= b)%Z -> Qc_of_Z a <= Qc_of_Z b.
Proof. intros Hab. unfold Qcle, Qle. simpl. lia. Qed.

Lemma Qc_of_Z_inj (a b : Z) : Qc_of_Z a = Qc_of_Z b -> a = b.
Proof. intros E. exact (f_equal (fun q : Qc => Qnum q) E). Qed.

Lemma length_filter_eq_iff {A} (P : A -> Prop) `{forall x, Decision (P x)} (l : list A) :
  length (filter P l) = length l <-> Forall P l.
Proof.
  induction l as [|x l IH].
  - split; [constructor|done].
  - rewrite filter_cons. destruct (decide (P x)) as [Hx|Hx].
    + cbn [length]. rewrite Forall_cons. split.
      * intros E. split; [done|]. apply IH. lia.
      * intros [_ Hl]. apply IH in Hl. lia.
    + pose proof (length_filter P l). cbn [length]. split; [lia|].
      intros Hall. apply Forall_cons in Hall as [? _]. done.
Qed.

Lemma Forall_zip_eq (y p : list Z) :
  length y = length p ->
  Forall (fun q : Z * Z => q.1 = q.2) (zip y p) <-> y = p.
Proof.
  revert p. induction y as [|a y IH]; intros [|b p] Hlen; simplify_eq/=.
  - split; [done|constructor].
  - rewrite Forall_cons, IH by done. simpl. split.
    + intros [-> ->]. done.
    + intros E. by simplify_eq.
Qed.

Lemma accuracy_score_spec (y_true y_pred : list Z) :
  length y_true = length y_pred -> (0 < length y_true)%nat ->
  exists a, accuracy_score y_true y_pred = Some (Fin a) /\
            0 <= a <= 1 /\ (a = 1 <-> y_pred = y_true).
Proof.
  intros Hlen Hpos. unfold accuracy_score. cbv zeta.
  rewrite bool_decide_eq_true_2 by done.
  set (hits := filter (fun p : Z * Z => p.1 = p.2) (zip y_true y_pred)).
  assert (Hh : (length hits <= length y_true)%nat).
  { etrans; [apply length_filter|]. rewrite length_zip. lia. }
  set (h := Qc_of_Z (Z.of_nat (length hits))).
  set (n := Qc_of_Z (Z.of_nat (length y_true))).
  assert (Hn : 0 < n) by (by apply Qc_of_nat_gt_0).
  assert (Hn0 : n <> 0) by (by apply Qc_of_nat_pos).
  assert (Hh0 : 0 <= h).
  { unfold h. rewrite <- Z2Qc_inj_0. apply Qc_of_Z_le. lia. }
  assert (Hhn : h <= n) by (apply Qc_of_Z_le; lia).
  assert (Emul : h / n * n = h) by (field; done).
  exists (h / n). split.
  { unfold of_nat, of_Z. fold h n. by rewrite fdiv_fin. }
  split; [split|].
  - by apply Qcdiv_nonneg.
  - apply (Qcmult_le_mono_pos_r _ _ n Hn). by rewrite Emul, Qcmult_1_l.
  - assert (E1 : h / n = 1 <-> h = n).
    { split.
      - intros E. rewrite <- Emul, E. ring.
      - intros ->. field. done. }
    rewrite E1. unfold h, n. split.
    + intros E. apply Qc_of_Z_inj, Nat2Z.inj in E.
      assert (Hz : length hits = length (zip y_true y_pred)).
      { rewrite E, length_zip. lia. }
      apply length_filter_eq_iff, Forall_zip_eq in Hz; done.
    + intros ->. do 2 f_equal.
      assert (Hall : Forall (fun q : Z * Z => q.1 = q.2) (zip y_true y_true))
        by (by apply Forall_zip_eq).
      apply (proj2 (length_filter_eq_iff _ _)) in Hall. unfold hits.
      rewrite Hall, length_zip. lia.
Qed.

(** X18. When the classifier gives one prediction for each test row, on
    a table of at least two rows the evaluation cell reports an accuracy
    that is a number between 0 and 1, and it is 1 exactly when every
    prediction equals the label of its test row. *)
Theorem model_accuracy_between_0_and_1 fit_predict (T : list Labeled) :
  (forall X_train y_train X_test,
     length (fit_predict X_train y_train X_test) = length X_test) ->
  (2 <= length T)%nat ->
  let n_train := (length T - n_test_of (length T))%nat in
  let predictions :=
    fit_predict (features <$> take n_train T) (Target <$> take n_train T)
                (features <$> drop n_train T) in
  exists a, model_accuracy fit_predict T = Some (Fin a) /\
            0 <= a <= 1 /\
            (a = 1 <-> predictions = Target <$> drop n_train T).
Proof.
  intros Hfit Hn n_train predictions. unfold model_accuracy, split_table.
  cbv zeta.
  destruct (train_test_split_Some (features <$> T) (Target <$> T)) as [E Hk].
  { by rewrite !length_fmap. }
  { by rewrite length_fmap. }
  rewrite length_fmap in E, Hk. fold n_train in E, Hk. rewrite E.
  rewrite <- !fmap_take, <- !fmap_drop. fold predictions.
  apply accuracy_score_spec.
  - unfold predictions. by rewrite Hfit, !length_fmap.
  - rewrite length_fmap, length_drop. lia.
Qed.

Lemma model_accuracy_between_0_and_1_witness :
  let T := enhanced_table 0 fifty_five_quotes in
  let fit_predict := fun (_ : list (fval * fval * fval * fval * fval))
                         (_ : list Z) (X_test : list (fval * fval * fval * fval * fval)) =>
                       (fun _ => 1%Z) <$> X_test in
  let n_train := (length T - n_test_of (length T))%nat in
  let predictions :=
    fit_predict (features <$> take n_train T) (Target <$> take n_train T)
                (features <$> drop n_train T) in
  exists a, model_accuracy fit_predict T = Some (Fin a) /\
            0 <= a <= 1 /\
            (a = 1 <-> predictions = Target <$> drop n_train T).
Proof.
  intros T fit_predict.
  apply (model_accuracy_between_0_and_1 fit_predict T).
  - intros X_train y_train X_test. unfold fit_predict. apply length_fmap.
  - vm_compute. lia.
Defined.

(** X19. Under the same condition on the classifier the plot cell draws
    the price line through exactly the rows of the test partition, in
    order, and every marker of a predicted rise sits on a point of that
    line, in the same order; if the classifier returned another number
    of predictions, the cell would raise. *)
Theorem plot_cell_points fit_predict (T : list Labeled) :
  (2 <= length T)%nat ->
  let n_train := (length T - n_test_of (length T))%nat in
  let predictions :=
    fit_predict (features <$> take n_train T) (Target <$> take n_train T)
                (features <$> drop n_train T) in
  (length predictions = length (drop n_train T) ->
   exists line marks,
     plot_cell fit_predict T = Some (line, marks) /\
     line = (fun r => (lDate r, lClose r)) <$> stock_data_test T n_train /\
     marks `sublist_of` line) /\
  (length predictions <> length (drop n_train T) ->
   plot_cell fit_predict T = None).
Proof.
  intros Hn n_train predictions. unfold plot_cell, split_table. cbv zeta.
  destruct (train_test_split_Some (features <$> T) (Target <$> T)) as [E Hk].
  { by rewrite !length_fmap. }
  { by rewrite length_fmap. }
  rewrite length_fmap in E, Hk. fold n_train in E, Hk. rewrite E.
  rewrite <- !fmap_take, <- !fmap_drop. fold predictions.
  rewrite length_fmap, length_take_le by lia.
  unfold assign_predicted, stock_data_test. split.
  - intros Hlen. rewrite bool_decide_eq_true_2 by done.
    eexists _, _. split; [reflexivity|]. split.
    + change plot_point with ((fun r => (lDate r, lClose r)) ∘ plotted_row).
      rewrite (list_fmap_compose plotted_row).
      f_equal. apply fmap_zip_with_l; [done|lia].
    + apply fmap_sublist, sublist_filter.
  - intros Hlen. by rewrite bool_decide_eq_false_2.
Qed.

Lemma plot_cell_points_witness :
  let T := enhanced_table 0 fifty_five_quotes in
  let fit_predict := fun (_ : list (fval * fval * fval * fval * fval))
                         (_ : list Z) (X_test : list (fval * fval * fval * fval * fval)) =>
                       (fun _ => 1%Z) <$> X_test in
  let n_train := (length T - n_test_of (length T))%nat in
  exists line marks,
    plot_cell fit_predict T = Some (line, marks) /\
    line = (fun r => (lDate r, lClose r)) <$> stock_data_test T n_train /\
    marks `sublist_of` line.
Proof.
  intros T fit_predict n_train.
  destruct (plot_cell_points fit_predict T) as [Hok _].
  - vm_compute. lia.
  - apply Hok. vm_compute. reflexivity.
Defined.

(** ** Dates in the table *)

(** X20. [dropna] keeps the chronological order: when the observations
    come in strictly increasing date order, so do the rows of the
    feature table, and no date occurs twice. *)
Theorem table_dates_increasing data T :
  is_feature_table data T ->
  StronglySorted Z.lt (qDate <$> data) ->
  StronglySorted Z.lt (lDate <$> T) /\ NoDup (lDate <$> T).
Proof.
  intros HT Hs. destruct (table_columns _ _ HT) as [Hk _].
  assert (E : lDate <$> T = Date <$> kept_rows data).
  { unfold lDate. rewrite <- Hk. by rewrite <- list_fmap_compose. }
  rewrite E. pose proof (kept_dates_sorted data Hs) as Hsorted.
  split; [done|].
  clear E. induction Hsorted as [|d ds Hds IH Hd]; constructor; [|done].
  intros Hin. eapply Forall_forall in Hd; [|exact Hin]. lia.
Qed.

Lemma table_dates_increasing_witness :
  StronglySorted Z.lt (lDate <$> enhanced_table 0 fifty_five_quotes) /\
  NoDup (lDate <$> enhanced_table 0 fifty_five_quotes).
Proof.
  apply (table_dates_increasing fifty_five_quotes).
  - apply ft_enhanced.
  - apply (bool_decide_unpack _). vm_compute. exact I.
Defined.

(** A label looks at the next row of the table, not at the next trading
    day.  On the plateau input the rows of days 51 to 59 are dropped
    (their RSI is 0/0), so day 50 is followed by day 60 and gets label 1,
    although the close of day 51 equals the close of day 50. *)
Example label_skips_dropped_days :
  lDate <$> enhanced_table 0 plateau_quotes = [49; 50; 60]%Z /\
  Target <$> enhanced_table 0 plateau_quotes = [0; 1; 0]%Z /\
  qClose <$> plateau_quotes !! 50%nat = qClose <$> plateau_quotes !! 51%nat.
Proof. split_and!; vm_compute; reflexivity. Qed.
